(** * Pro Trader Dashboard (app.py): the indicator and scoring pipeline

    A shallow embedding of [src/app.py]: the candle fetch ([fetch_data]),
    the indicator engine ([add_indicators]), the "rule of three" scorer and
    the button handler that ties them together, followed by the properties
    of the specification that concern them.

    Conventions.
    - A pandas cell is a Python object: [PyNone] or a binary64 float.  Floats
      are the [spec_float] of the Standard Library at precision 53 and
      maximal exponent 1024, compared by [SFltb]; a NaN compares false with
      everything, as in Python.
    - Python exceptions are values of [exn]; code that may raise returns a
      [result].
    - [pandas_ta] is an external library: [add_indicators] takes it as a
      record of functions ([TaLib]). *)

From Stdlib Require Import ZArith QArith Qpower List String Ascii Bool Lia.
From Stdlib Require Import Floats.SpecFloat.
From Stdlib Require Import DecimalString.
Import ListNotations.

Local Open Scope string_scope.
Local Open Scope Z_scope.

(* ================================================================== *)
(** ** Binary64 floats *)

Module Float64.

Definition prec : Z := 53.
Definition emax : Z := 1024.

Definition float : Type := spec_float.

(** A float is a binary64 number when its mantissa and exponent are in
    canonical form. *)
Definition valid (x : float) : bool := valid_binary prec emax x.

Definition nan : float := S754_nan.

Definition is_nan (x : float) : bool :=
  match x with S754_nan => true | _ => false end.

(** Python's [x < y] on two floats. *)
Definition ltb (x y : float) : bool := SFltb x y.

(** Conversion of a Python integer, rounding to nearest even. *)
Definition of_Z (z : Z) : float := binary_normalize prec emax z 0 false.

(** The exact rational value of a finite float; infinities and NaN have
    none. *)
Definition to_Q (x : float) : option Q :=
  match x with
  | S754_zero _ => Some 0%Q
  | S754_finite s m e =>
      Some (inject_Z (cond_Zopp s (Zpos m)) * Qpower 2 e)%Q
  | S754_infinity _ => None
  | S754_nan => None
  end.

(** The magnitude of a finite float in units of 2^-1074, the smallest
    positive binary64 number. *)
Definition mag (m : positive) (e : Z) : Z := Zpos m * 2 ^ (e + 1074).

(** The value of a float without infinities and NaN, in the same units. *)
Definition scaled (x : float) : Z :=
  match x with
  | S754_finite s m e => cond_Zopp s (mag m e)
  | _ => 0
  end.

End Float64.

Definition float : Type := Float64.float.

(* ================================================================== *)
(** ** Python objects, exceptions and results *)

Inductive exn : Type :=
| KeyError (key : string)
| TypeError
| IndexError
| ValueError
| AttributeError
| OverflowError
| GatewayError (msg : string).

Inductive result (A : Type) : Type :=
| Ok (a : A)
| Raise (e : exn).

Arguments Ok {A} a.
Arguments Raise {A} e.

Definition bind {A B : Type} (r : result A) (k : A -> result B) : result B :=
  match r with
  | Ok a => k a
  | Raise e => Raise e
  end.

Declare Scope py_scope.
Delimit Scope py_scope with py.
Notation "x <- r ;; k" := (bind r (fun x => k))
  (at level 61, r at next level, right associativity) : py_scope.
Local Open Scope py_scope.

(** A cell of a DataFrame or of a row: [None] or a float. *)
Inductive cell : Type :=
| PyNone
| PyFloat (x : float).

(** [a > b]: defined between floats, a [TypeError] as soon as one side is
    [None]. *)
Definition py_gt (a b : cell) : result bool :=
  match a, b with
  | PyFloat x, PyFloat y => Ok (Float64.ltb y x)
  | _, _ => Raise TypeError
  end.

Definition py_lt (a b : cell) : result bool := py_gt b a.

(* ================================================================== *)
(** ** Rows: [df.iloc[-1]] *)

Definition Row : Type := list (string * cell).

Fixpoint assoc {A : Type} (k : string) (l : list (string * A)) : option A :=
  match l with
  | [] => None
  | (k', v) :: l' => if String.eqb k k' then Some v else assoc k l'
  end.

(** [row[key]] *)
Definition row_get (r : Row) (key : string) : result cell :=
  match assoc key r with
  | Some c => Ok c
  | None => Raise (KeyError key)
  end.

(* ================================================================== *)
(** ** The rule of three (app.py, lines 156-203) *)

Inductive Classification : Type := STRONG_BUY | WATCHLIST | NO_TRADE.

Record Verdict : Type := {
  trend_bullish : bool;
  mom_bullish : bool;
  vol_bullish : bool;
  intra_bullish : bool;
  score : Z;
  classification : Classification
}.

Definition f50 : float := Eval vm_compute in Float64.of_Z 50.
Definition f70 : float := Eval vm_compute in Float64.of_Z 70.

(** [50 < rsi_val < 70]: Python evaluates [50 < rsi_val] first and the
    second comparison only when the first is true. *)
Definition rsi_in_band (rsi_val : cell) : result bool :=
  lo <- py_lt (PyFloat f50) rsi_val ;;
  if lo : bool then py_lt rsi_val (PyFloat f70) else Ok false.

(** [if c: score += 1] *)
Definition bump (c : bool) (score : Z) : Z := if c then score + 1 else score.

(** The banner chosen at lines 198-203. *)
Definition classify (score : Z) (intra_bullish : bool) : Classification :=
  if (score =? 3) && intra_bullish then STRONG_BUY
  else if score <=? 1 then NO_TRADE
  else WATCHLIST.

Definition rule_of_three (last_day last_15 : Row) : result Verdict :=
  let score := 0 in
  (* CATEGORY 1: TREND *)
  close <- row_get last_day "Close" ;;
  ema_50 <- row_get last_day "EMA_50" ;;
  trend_bullish <- py_gt close ema_50 ;;
  let score := bump trend_bullish score in
  (* CATEGORY 2: MOMENTUM *)
  rsi_val <- row_get last_day "RSI" ;;
  mom_bullish <- rsi_in_band rsi_val ;;
  let score := bump mom_bullish score in
  (* CATEGORY 3: VOLUME *)
  volume <- row_get last_day "Volume" ;;
  vol_sma_5 <- row_get last_day "Vol_SMA_5" ;;
  vol_bullish <- py_gt volume vol_sma_5 ;;
  let score := bump vol_bullish score in
  (* Intraday check *)
  close_15 <- row_get last_15 "Close" ;;
  vwap <- row_get last_15 "VWAP" ;;
  intra_bullish <- py_gt close_15 vwap ;;
  Ok {| trend_bullish := trend_bullish;
        mom_bullish := mom_bullish;
        vol_bullish := vol_bullish;
        intra_bullish := intra_bullish;
        score := score;
        classification := classify score intra_bullish |}.

(* ================================================================== *)
(** ** Series and DataFrames *)

(** Timestamps are instants on the integer time line. *)
Definition Timestamp : Type := Z.

(** A pandas Series: its labels and its values. *)
Record Series : Type := {
  s_index : list Timestamp;
  s_values : list cell
}.

(** A pandas DataFrame: the row index and the columns in their order.
    Every column holds one cell per label of the index. *)
Record DataFrame : Type := {
  df_index : list Timestamp;
  df_columns : list (string * list cell)
}.

(** A frame of candles: the five columns of prices and volume over a time
    index. *)
Definition candles (idx : list Timestamp)
    (open high low close volume : list cell) : DataFrame :=
  {| df_index := idx;
     df_columns := [("Open", open); ("High", high); ("Low", low);
                    ("Close", close); ("Volume", volume)] |}.

(** [df.columns] *)
Definition column_names (df : DataFrame) : list string :=
  map fst (df_columns df).

Definition has_column (key : string) (df : DataFrame) : bool :=
  match assoc key (df_columns df) with Some _ => true | None => false end.

(** [df.empty] *)
Definition df_empty (df : DataFrame) : bool :=
  match df_index df, df_columns df with
  | [], _ => true
  | _, [] => true
  | _, _ => false
  end.

(** [df[key]], on a frame read in place. *)
Definition frame_get (df : DataFrame) (key : string) : result Series :=
  match assoc key (df_columns df) with
  | Some v => Ok {| s_index := df_index df; s_values := v |}
  | None => Raise (KeyError key)
  end.

(** [[col for col in df.columns if col.startswith(p)][0]] *)
Definition first_with_prefix (p : string) (df : DataFrame) : result string :=
  match filter (String.prefix p) (column_names df) with
  | [] => Raise IndexError
  | col :: _ => Ok col
  end.

(** Replacing the column [key] where it is, or appending it. *)
Fixpoint set_column (key : string) (v : list cell)
    (cols : list (string * list cell)) : list (string * list cell) :=
  match cols with
  | [] => [(key, v)]
  | (k, old) :: cols' =>
      if String.eqb key k then (k, v) :: cols'
      else (k, old) :: set_column key v cols'
  end.

Fixpoint lookup_label (t : Timestamp) (labels : list Timestamp)
    (values : list cell) : cell :=
  match labels, values with
  | l :: labels', v :: values' =>
      if Z.eqb t l then v else lookup_label t labels' values'
  | _, _ => PyFloat Float64.nan
  end.

(** The values of [s] seen from the labels [idx]: the values themselves
    when [s] is on the same index, otherwise the value at each label of
    [idx], NaN where [s] has no such label. *)
Definition align (idx : list Timestamp) (s : Series) : list cell :=
  if list_eq_dec Z.eq_dec idx (s_index s) then s_values s
  else map (fun t => lookup_label t (s_index s) (s_values s)) idx.

(** The right-hand side of [df[key] = value]: [None], broadcast to every
    row, or a Series, aligned on the index of [df]. *)
Definition column_of (idx : list Timestamp) (value : option Series)
    : list cell :=
  match value with
  | None => repeat PyNone (List.length idx)
  | Some s => align idx s
  end.

(** [df.iloc[-1]] *)
Definition iloc_last (df : DataFrame) : result Row :=
  match df_index df with
  | [] => Raise IndexError
  | _ :: _ =>
      Ok (map (fun kv => (fst kv, last (snd kv) (PyFloat Float64.nan)))
              (df_columns df))
  end.

(* ================================================================== *)
(** ** Code that updates a DataFrame in place *)

(** A computation on the DataFrame it was handed: it leaves the frame in
    some state and returns or raises. *)
Definition Upd (A : Type) : Type := DataFrame -> DataFrame * result A.

Definition ret {A : Type} (a : A) : Upd A := fun df => (df, Ok a).

Definition lift {A : Type} (r : result A) : Upd A := fun df => (df, r).

Definition ubind {A B : Type} (m : Upd A) (k : A -> Upd B) : Upd B :=
  fun df =>
    match m df with
    | (df', Ok a) => k a df'
    | (df', Raise e) => (df', Raise e)
    end.

Notation "x <~ m ;; k" := (ubind m (fun x => k))
  (at level 61, m at next level, right associativity) : py_scope.
Notation "m ;;; k" := (ubind m (fun _ => k))
  (at level 61, right associativity) : py_scope.

(** [df[key]] *)
Definition getitem (key : string) : Upd Series :=
  fun df => (df, frame_get df key).

(** [df[key] = value] *)
Definition setitem (key : string) (value : option Series) : Upd unit :=
  fun df =>
    ({| df_index := df_index df;
        df_columns := set_column key (column_of (df_index df) value)
                                 (df_columns df) |},
     Ok tt).

(* ================================================================== *)
(** ** The indicator engine (app.py, lines 88-123) *)

(** The functions of [pandas_ta] that [add_indicators] calls.  Each returns
    a Series or a DataFrame, or [None]. *)
Record TaLib : Type := {
  ta_sma : Series -> nat -> option Series;
  ta_ema : Series -> nat -> option Series;
  ta_supertrend : Series -> Series -> Series -> nat -> Z -> option DataFrame;
  ta_rsi : Series -> nat -> option Series;
  ta_macd : Series -> option DataFrame;
  ta_bbands : Series -> nat -> option DataFrame;
  ta_vwap : Series -> Series -> Series -> Series -> option Series
}.

Section Engine.

Variable ta : TaLib.

Definition add_supertrend : Upd unit :=
  high <~ getitem "High" ;;
  low <~ getitem "Low" ;;
  close <~ getitem "Close" ;;
  match ta_supertrend ta high low close 10 3 with
  | Some st_data =>
      st_col <~ lift (first_with_prefix "SUPERT_" st_data) ;;
      st <~ lift (frame_get st_data st_col) ;;
      setitem "Supertrend" (Some st)
  | None => ret tt
  end.

Definition add_macd : Upd unit :=
  close <~ getitem "Close" ;;
  match ta_macd ta close with
  | Some macd =>
      macd_col <~ lift (first_with_prefix "MACD_" macd) ;;
      signal_col <~ lift (first_with_prefix "MACDs_" macd) ;;
      m <~ lift (frame_get macd macd_col) ;;
      setitem "MACD" (Some m) ;;;
      s <~ lift (frame_get macd signal_col) ;;
      setitem "MACD_Signal" (Some s)
  | None => ret tt
  end.

Definition add_bbands : Upd unit :=
  close <~ getitem "Close" ;;
  match ta_bbands ta close 20 with
  | Some bb =>
      bb_upper_col <~ lift (first_with_prefix "BBU_" bb) ;;
      bb_lower_col <~ lift (first_with_prefix "BBL_" bb) ;;
      u <~ lift (frame_get bb bb_upper_col) ;;
      setitem "BB_Upper" (Some u) ;;;
      l <~ lift (frame_get bb bb_lower_col) ;;
      setitem "BB_Lower" (Some l)
  | None => ret tt
  end.

Definition add_vwap : Upd unit :=
  high <~ getitem "High" ;;
  low <~ getitem "Low" ;;
  close <~ getitem "Close" ;;
  volume <~ getitem "Volume" ;;
  setitem "VWAP" (ta_vwap ta high low close volume).

Definition add_indicators (is_intraday : bool) : Upd unit :=
  (* Trend *)
  close <~ getitem "Close" ;;
  setitem "SMA_50" (ta_sma ta close 50) ;;;
  close <~ getitem "Close" ;;
  setitem "EMA_50" (ta_ema ta close 50) ;;;
  (* Supertrend *)
  add_supertrend ;;;
  (* Momentum *)
  close <~ getitem "Close" ;;
  setitem "RSI" (ta_rsi ta close 14) ;;;
  add_macd ;;;
  (* Volatility *)
  add_bbands ;;;
  (* Volume *)
  volume <~ getitem "Volume" ;;
  setitem "Vol_SMA_5" (ta_sma ta volume 5) ;;;
  (* VWAP *)
  (if is_intraday then add_vwap else ret tt).

End Engine.

(* ================================================================== *)
(** ** The data engine (app.py, lines 70-85) *)

(** A scalar of the decoded JSON payload. *)
Inductive raw : Type :=
| RNull
| RInt (z : Z)
| RFloat (x : float)
| RStr (s : string).

(** The value stored under a key of the payload: a scalar or a list of
    rows, each row a list of scalars. *)
Inductive jvalue : Type :=
| JScalar (v : raw)
| JRows (rows : list (list raw)).

(** What [getCandleData] returns: [None] or a dictionary. *)
Inductive payload : Type :=
| PNone
| PDict (fields : list (string * jvalue)).

Record Params : Type := {
  exchange : string;
  symboltoken : string;
  interval : string;
  fromdate : Timestamp;
  todate : Timestamp
}.

(** The authenticated session object; its call returns or raises. *)
Record Session : Type := {
  getCandleData : Params -> result payload
}.

(** [data['data']] *)
Definition payload_data (data : payload) : result jvalue :=
  match data with
  | PNone => Raise TypeError
  | PDict fields =>
      match assoc "data" fields with
      | Some v => Ok v
      | None => Raise (KeyError "data")
      end
  end.

(** The rows of [pd.DataFrame(x, columns=[six names])]: [None] and the
    empty list give a frame without rows; a list of rows is padded with
    [None] to its widest row, which must have six cells; any other scalar is
    refused. *)
Definition widest (rows : list (list raw)) : nat :=
  fold_right (fun r w => Nat.max (List.length r) w) 0%nat rows.

Definition pad (r : list raw) : list raw :=
  (r ++ repeat RNull (6 - List.length r)%nat)%list.

Definition six_columns (x : jvalue) : result (list (list raw)) :=
  match x with
  | JScalar RNull => Ok []
  | JScalar _ => Raise ValueError
  | JRows [] => Ok []
  | JRows rows =>
      if Nat.eqb (widest rows) 6 then Ok (map pad rows) else Raise ValueError
  end.

(** Running a fallible function over a column, top to bottom. *)
Fixpoint traverse {A B : Type} (f : A -> result B) (l : list A)
    : result (list B) :=
  match l with
  | [] => Ok []
  | a :: l' => b <- f a ;; bs <- traverse f l' ;; Ok (b :: bs)
  end.

Definition field (j : nat) (row : list raw) : raw := nth j row RNull.

Section DataEngine.

(** pandas' timestamp parser on one cell: the instant, or [None] where
    [pd.to_datetime] raises. *)
Variable to_datetime : raw -> option Timestamp.

(** Python's [float(s)] on a string: the float, or [None] where it
    raises. *)
Variable float_of_string : string -> option float.

(** The wall clock, in minutes. *)
Variable now : Timestamp.

(** The session made at start-up; [None] when the login failed. *)
Variable api : option Session.

Definition parse_timestamp (v : raw) : result Timestamp :=
  match to_datetime v with
  | Some t => Ok t
  | None => Raise ValueError
  end.

(** One cell of [df.astype(float)]. *)
Definition astype_float (v : raw) : result cell :=
  match v with
  | RNull => Ok (PyFloat Float64.nan)
  | RInt z =>
      match Float64.of_Z z with
      | S754_infinity _ => Raise OverflowError
      | x => Ok (PyFloat x)
      end
  | RFloat x => Ok (PyFloat x)
  | RStr s =>
      match float_of_string s with
      | Some x => Ok (PyFloat x)
      | None => Raise ValueError
      end
  end.

Definition float_column (j : nat) (rows : list (list raw))
    : result (list cell) :=
  traverse (fun row => astype_float (field j row)) rows.

(** The body of the [try]. *)
Definition fetch_body (token interval : string) (days : Z)
    : result DataFrame :=
  let params := {| exchange := "NSE";
                   symboltoken := token;
                   interval := interval;
                   fromdate := now - days * 1440;
                   todate := now |} in
  data <- match api with
          | Some session => getCandleData session params
          | None => Raise AttributeError
          end ;;
  x <- payload_data data ;;
  rows <- six_columns x ;;
  timestamps <- traverse (fun row => parse_timestamp (field 0 row)) rows ;;
  open <- float_column 1 rows ;;
  high <- float_column 2 rows ;;
  low <- float_column 3 rows ;;
  close <- float_column 4 rows ;;
  volume <- float_column 5 rows ;;
  Ok (candles timestamps open high low close volume).

(** [try: ... except: return None] *)
Definition fetch_data (token interval : string) (days : Z)
    : option DataFrame :=
  match fetch_body token interval days with
  | Ok df => Some df
  | Raise _ => None
  end.

End DataEngine.

(** The fields of the two last rows that the scorer reads. *)
Definition daily_fields : list string :=
  ["Close"; "EMA_50"; "RSI"; "Volume"; "Vol_SMA_5"].

Definition intraday_fields : list string := ["Close"; "VWAP"].

(** A field that a row does not have, or has as [None]. *)
Definition unavailable (r : Row) (key : string) : bool :=
  match assoc key r with
  | Some (PyFloat _) => false
  | Some PyNone => true
  | None => true
  end.

(** One of the fields the scorer reads is not available. *)
Definition lacks_field (last_day last_15 : Row) : bool :=
  existsb (unavailable last_day) daily_fields
  || existsb (unavailable last_15) intraday_fields.

(* ================================================================== *)
(** ** The Analyze button (app.py, lines 137-227) *)

(** What the handler puts on the page, in order. *)
Inductive ui_event : Type :=
| st_title
| st_metrics (price : cell) (trend_msg : string) (rsi_val : cell)
             (intra_msg : string)
| st_checklist (trend_bullish mom_bullish vol_bullish : bool)
| st_success (msg : string)
| st_error (msg : string)
| st_warning (msg : string).

Definition fetch_failed_msg : string :=
  "Could not fetch data. Market closed or invalid symbol.".

Definition banner (c : Classification) : ui_event :=
  match c with
  | STRONG_BUY => st_success "🚀 **STRONG BUY SIGNAL** (All Systems Go!)"
  | NO_TRADE => st_error "🛑 **NO TRADE** (Waiting for setup)"
  | WATCHLIST => st_warning "⚠️ **Watchlist** (Mixed Signals)"
  end.

Section Dashboard.

Variable ta : TaLib.

(** Lines 147-203, for two frames that were fetched and are not empty:
    the events shown and how the run ends.  The chart tabs that follow
    (lines 205-224) are outside the model. *)
Definition analysis (df_daily df_intra : DataFrame)
    : list ui_event * result Verdict :=
  match add_indicators ta false df_daily with
  | (_, Raise e) => ([], Raise e)
  | (df_daily, Ok _) =>
  match add_indicators ta true df_intra with
  | (_, Raise e) => ([], Raise e)
  | (df_intra, Ok _) =>
  match iloc_last df_daily with
  | Raise e => ([], Raise e)
  | Ok last_day =>
  match iloc_last df_intra with
  | Raise e => ([], Raise e)
  | Ok last_15 =>
  match rule_of_three last_day last_15 with
  | Raise e => ([st_title], Raise e)
  | Ok v =>
      ([st_title;
        st_metrics (match assoc "Close" last_day with
                    | Some c => c | None => PyNone end)
                   (if trend_bullish v then "BULLISH" else "BEARISH")
                   (match assoc "RSI" last_day with
                    | Some c => c | None => PyNone end)
                   (if intra_bullish v then "Price > VWAP"
                    else "Price < VWAP");
        st_checklist (trend_bullish v) (mom_bullish v) (vol_bullish v);
        banner (classification v)],
       Ok v)
  end end end end end.

(** The handler, from the two results of [fetch_data]. *)
Definition analyze (df_daily df_intra : option DataFrame)
    : list ui_event * result (option Verdict) :=
  match df_daily, df_intra with
  | Some d, Some i =>
      if negb (df_empty d) && negb (df_empty i) then
        match analysis d i with
        | (shown, Ok v) => (shown, Ok (Some v))
        | (shown, Raise e) => (shown, Raise e)
        end
      else ([st_error fetch_failed_msg], Ok None)
  | _, _ => ([st_error fetch_failed_msg], Ok None)
  end.

Variable to_datetime : raw -> option Timestamp.
Variable float_of_string : string -> option float.
Variable now : Timestamp.
Variable api : option Session.

(** One press of the button for the stock with the given token. *)
Definition on_analyze (token : string)
    : list ui_event * result (option Verdict) :=
  let df_daily :=
    fetch_data to_datetime float_of_string now api token "ONE_DAY" 365 in
  let df_intra :=
    fetch_data to_datetime float_of_string now api token
               "FIFTEEN_MINUTE" 10 in
  analyze df_daily df_intra.

End Dashboard.

(* ================================================================== *)
(** ** The moving averages of the specification *)

Module SpecIndicators.

Local Open Scope Q_scope.

(** An indicator value at one row: a number, or not available. *)
Definition entry : Type := option Q.

Definition mean (window : list Q) : Q :=
  fold_right Qplus 0 window / inject_Z (Z.of_nat (List.length window)).

(** Modelled from the spec: the exponential recurrence of EMA(n), which
    [pandas_ta] computes and [src/] only calls: one step with smoothing
    factor [alpha] from the previous average. *)
Definition ema_step (alpha prev x : Q) : Q :=
  alpha * x + (1 - alpha) * prev.

Fixpoint ema_run (alpha prev : Q) (closes : list Q) : list entry :=
  match closes with
  | [] => []
  | x :: closes' =>
      let e := ema_step alpha prev x in
      Some e :: ema_run alpha e closes'
  end.

(** Modelled from the spec: [ta.ema], the EMA(n) of section 4.2, which is
    code of [pandas_ta] and not under [src/]: smoothing factor 2/(n+1),
    seeded by the SMA(n) of the first window, the recurrence thereafter;
    the n-1 rows of the warm-up are not available; on fewer than n rows
    the computation yields no result. *)
Definition ema (n : nat) (closes : list Q) : option (list entry) :=
  match n with
  | O => None
  | S warmup =>
      if (List.length closes <? n)%nat then None
      else
        let seed := mean (firstn n closes) in
        let alpha := 2 / inject_Z (Z.of_nat n + 1) in
        Some (repeat None warmup
                ++ Some seed :: ema_run alpha seed (skipn n closes))%list
  end.

End SpecIndicators.

(* ================================================================== *)
(** ** Stand-ins for the environment, for running the model *)

Module Demo.

Definition digit_of (c : ascii) : option Z :=
  let n := nat_of_ascii c in
  if ((48 <=? n) && (n <=? 57))%nat then Some (Z.of_nat (n - 48)) else None.

(** The digits of a text read as one decimal number, the other characters
    skipped: on stamps of one fixed layout such as [2024-01-02 09:15] the
    number grows with time. *)
Fixpoint digits_value (s : string) (acc : option Z) : option Z :=
  match s with
  | EmptyString => acc
  | String c s' =>
      match digit_of c with
      | Some d =>
          digits_value s'
            (Some (10 * match acc with Some a => a | None => 0 end + d))
      | None => digits_value s' acc
      end
  end.

Definition to_datetime (v : raw) : option Timestamp :=
  match v with
  | RStr s => digits_value s None
  | _ => None
  end.

Fixpoint all_digits (s : string) : bool :=
  match s with
  | EmptyString => true
  | String c s' =>
      match digit_of c with Some _ => all_digits s' | None => false end
  end.

(** Decimal integers only. *)
Definition float_of_string (s : string) : option float :=
  if all_digits s then
    match digits_value s None with
    | Some z => Some (Float64.of_Z z)
    | None => None
    end
  else None.

(** A session that answers every request with the same rows. *)
Definition serving (rows : list (list raw)) : Session :=
  {| getCandleData := fun _ => Ok (PDict [("data", JRows rows)]) |}.

(** A library none of whose functions yields a result. *)
Definition ta_none : TaLib :=
  {| ta_sma := fun _ _ => None;
     ta_ema := fun _ _ => None;
     ta_supertrend := fun _ _ _ _ _ => None;
     ta_rsi := fun _ _ => None;
     ta_macd := fun _ => None;
     ta_bbands := fun _ _ => None;
     ta_vwap := fun _ _ _ _ => None |}.

Definition frame_of (names : list string) (s : Series) : DataFrame :=
  {| df_index := s_index s;
     df_columns := map (fun k => (k, s_values s)) names |}.

(** A library that hands back the closing prices as every indicator,
    under the column names of [pandas_ta]. *)
Definition ta_echo : TaLib :=
  {| ta_sma := fun s _ => Some s;
     ta_ema := fun s _ => Some s;
     ta_supertrend := fun _ _ close _ _ =>
       Some (frame_of ["SUPERT_10_3.0"; "SUPERTd_10_3.0";
                       "SUPERTl_10_3.0"; "SUPERTs_10_3.0"] close);
     ta_rsi := fun s _ => Some s;
     ta_macd := fun close =>
       Some (frame_of ["MACD_12_26_9"; "MACDh_12_26_9"; "MACDs_12_26_9"]
                      close);
     ta_bbands := fun close _ =>
       Some (frame_of ["BBL_20_2.0"; "BBM_20_2.0"; "BBU_20_2.0";
                       "BBB_20_2.0"; "BBP_20_2.0"] close);
     ta_vwap := fun _ _ close _ => Some close |}.

(** As [ta_echo], but Supertrend comes back without its trend line. *)
Definition ta_no_trend_line : TaLib :=
  {| ta_sma := ta_sma ta_echo;
     ta_ema := ta_ema ta_echo;
     ta_supertrend := fun _ _ close _ _ =>
       Some (frame_of ["SUPERTd_10_3.0"] close);
     ta_rsi := ta_rsi ta_echo;
     ta_macd := ta_macd ta_echo;
     ta_bbands := ta_bbands ta_echo;
     ta_vwap := ta_vwap ta_echo |}.

Definition fl (z : Z) : cell := PyFloat (Float64.of_Z z).

(** Two candles. *)
Definition two_candles : DataFrame :=
  candles [202401010915; 202401010930]
          [fl 100; fl 101] [fl 102; fl 103] [fl 99; fl 100]
          [fl 101; fl 102] [fl 5000; fl 7000].

(** A daily last row with the three categories bullish, and an intraday
    last row above its VWAP. *)
Definition bull_day : Row :=
  [("Close", fl 110); ("EMA_50", fl 100); ("RSI", fl 60);
   ("Volume", fl 7000); ("Vol_SMA_5", fl 5000)].

Definition bull_15 : Row := [("Close", fl 110); ("VWAP", fl 109)].

Definition bull_verdict : Verdict :=
  {| trend_bullish := true; mom_bullish := true; vol_bullish := true;
     intra_bullish := true; score := 3; classification := STRONG_BUY |}.

(** The same day with an EMA_50 that is NaN, that is [None], and that is
    not there. *)
Definition nan_day : Row :=
  [("Close", fl 110); ("EMA_50", PyFloat Float64.nan); ("RSI", fl 60);
   ("Volume", fl 7000); ("Vol_SMA_5", fl 5000)].

Definition none_day : Row :=
  [("Close", fl 110); ("EMA_50", PyNone); ("RSI", fl 60);
   ("Volume", fl 7000); ("Vol_SMA_5", fl 5000)].

Definition bare_day : Row :=
  [("Close", fl 110); ("RSI", fl 60);
   ("Volume", fl 7000); ("Vol_SMA_5", fl 5000)].

End Demo.

(* ================================================================== *)
(** ** What a run of the engine may touch *)

(** The keys [add_indicators] assigns. *)
Definition engine_keys (is_intraday : bool) : list string :=
  (["SMA_50"; "EMA_50"; "Supertrend"; "RSI"; "MACD"; "MACD_Signal";
    "BB_Upper"; "BB_Lower"; "Vol_SMA_5"]
     ++ (if is_intraday then ["VWAP"] else []))%list.

Definition ohlcv : list string := ["Open"; "High"; "Low"; "Close"; "Volume"].

Definition mentions (keys : list string) (key : string) : bool :=
  existsb (String.eqb key) keys.

(** A column whose name is not among [keys]. *)
Definition outside (keys : list string) (kv : string * list cell) : bool :=
  negb (mentions keys (fst kv)).

(** [df'] is [df] up to the columns named in [keys]: the same row index,
    the same columns outside [keys] with the same cells in the same order,
    and the column names of [df] still in place, new ones after them. *)
Definition same_outside (keys : list string) (df df' : DataFrame) : Prop :=
  df_index df' = df_index df /\
  filter (outside keys) (df_columns df')
    = filter (outside keys) (df_columns df) /\
  exists added, column_names df' = (column_names df ++ added)%list.

(** A computation that, returning or raising, leaves the frame the same
    outside [keys]. *)
Definition writes_only {A : Type} (keys : list string) (m : Upd A) : Prop :=
  forall df, same_outside keys df (fst (m df)).

(** The library [ta], its VWAP replaced by [f]. *)
Definition with_vwap
    (f : Series -> Series -> Series -> Series -> option Series)
    (ta : TaLib) : TaLib :=
  {| ta_sma := ta_sma ta;
     ta_ema := ta_ema ta;
     ta_supertrend := ta_supertrend ta;
     ta_rsi := ta_rsi ta;
     ta_macd := ta_macd ta;
     ta_bbands := ta_bbands ta;
     ta_vwap := f |}.

(* ================================================================== *)
(** ** Reading the outcome of a fetch *)

(** A sequence of instants that never goes back in time. *)
Fixpoint ascending (l : list Timestamp) : bool :=
  match l with
  | [] => true
  | t :: l' =>
      match l' with
      | [] => true
      | u :: _ => (t <=? u) && ascending l'
      end
  end.

(** The timestamp cells of the rows of a payload, in the order of the
    payload. *)
Definition timestamp_cells (x : jvalue) : list raw :=
  match x with
  | JScalar _ => []
  | JRows rows => map (field 0) rows
  end.

(** What the handler requires of a fetched frame: it is there and it has
    rows. *)
Definition usable (fetched : option DataFrame) : bool :=
  match fetched with
  | Some df => negb (df_empty df)
  | None => false
  end.

Module DemoFetch.

(** Two daily candles, the later one first. *)
Definition later_first : list (list raw) :=
  [[RStr "2024-01-02 00:00"; RInt 101; RInt 103; RInt 100; RInt 102;
    RInt 7000];
   [RStr "2024-01-01 00:00"; RInt 100; RInt 102; RInt 99; RInt 101;
    RInt 5000]].

Definition fetch (api : option Session) : option DataFrame :=
  fetch_data Demo.to_datetime Demo.float_of_string 0 api
             "3045" "ONE_DAY" 365.

(** A session whose call fails, as on a network error. *)
Definition offline : Session :=
  {| getCandleData := fun _ => Raise (GatewayError "timeout") |}.

(** A session that answers as for an unknown symbol: no data. *)
Definition no_data : Session :=
  {| getCandleData :=
       fun _ => Ok (PDict [("status", JScalar RNull);
                           ("data", JScalar RNull)]) |}.

End DemoFetch.

(* ================================================================== *)
(** ** Reading frames and payloads *)

Definition is_float (c : cell) : bool :=
  match c with
  | PyFloat _ => true
  | PyNone => false
  end.

Definition all_floats (col : list cell) : bool := forallb is_float col.

(** The price and volume columns with their positions in a payload row. *)
Definition price_fields : list (nat * string) :=
  [(1%nat, "Open"); (2%nat, "High"); (3%nat, "Low"); (4%nat, "Close");
   (5%nat, "Volume")].

(** A frame has a column whose name starts with [p]. *)
Definition has_prefix (p : string) (df : DataFrame) : bool :=
  existsb (String.prefix p) (column_names df).

(** A result of the library in which the engine finds the columns it looks
    for: no result at all, or a frame with a column for every prefix. *)
Definition names_found (prefixes : list string) (r : option DataFrame)
    : bool :=
  match r with
  | None => true
  | Some frame => forallb (fun p => has_prefix p frame) prefixes
  end.

(** The payloads on which the body of [fetch_data] raises: no dictionary,
    no data key, data that is neither null nor a list of rows, rows that
    are not six cells wide, a timestamp that does not parse, a price or a
    volume that is a text and not a number. *)
Inductive malformed (to_datetime : raw -> option Timestamp)
    (float_of_string : string -> option float) : payload -> Prop :=
| not_a_dictionary : malformed to_datetime float_of_string PNone
| no_data_key (fields : list (string * jvalue)) :
    assoc "data" fields = None ->
    malformed to_datetime float_of_string (PDict fields)
| data_is_a_scalar (fields : list (string * jvalue)) (v : raw) :
    assoc "data" fields = Some (JScalar v) -> v <> RNull ->
    malformed to_datetime float_of_string (PDict fields)
| wrong_width (fields : list (string * jvalue)) (raws : list (list raw))
    (n : nat) :
    assoc "data" fields = Some (JRows raws) ->
    raws <> [] -> n <> 6%nat ->
    Forall (fun row => List.length row = n) raws ->
    malformed to_datetime float_of_string (PDict fields)
| bad_timestamp (fields : list (string * jvalue)) (raws : list (list raw))
    (row : list raw) :
    assoc "data" fields = Some (JRows raws) ->
    In row raws -> to_datetime (field 0 row) = None ->
    malformed to_datetime float_of_string (PDict fields)
| bad_number (fields : list (string * jvalue)) (raws : list (list raw))
    (row : list raw) (j : nat) (key s : string) :
    assoc "data" fields = Some (JRows raws) ->
    In row raws -> In (j, key) price_fields ->
    field j row = RStr s -> float_of_string s = None ->
    malformed to_datetime float_of_string (PDict fields).

Module DemoEdges.

(** One candle whose high came as the text [n/a]. *)
Definition bad_price : list (list raw) :=
  [[RStr "2024-01-01 00:00"; RInt 100; RStr "n/a"; RInt 99; RInt 101;
    RInt 5000]].

End DemoEdges.

(* ================================================================== *)
(** ** What a run of the engine leaves behind *)

(** Whenever [m] returns, the frame has the column [key]. *)
Definition establishes {A : Type} (key : string) (m : Upd A) : Prop :=
  forall df df' a, m df = (df', Ok a) -> has_column key df' = true.

(** [m] removes no column: one that is there before is there after. *)
Definition keeps_columns {A : Type} (m : Upd A) : Prop :=
  forall df key,
    has_column key df = true -> has_column key (fst (m df)) = true.

(** The keys that [add_indicators] assigns without asking whether the
    library had a result. *)
Definition unguarded_keys (is_intraday : bool) : list string :=
  (["SMA_50"; "EMA_50"; "RSI"; "Vol_SMA_5"]
     ++ (if is_intraday then ["VWAP"] else []))%list.

(* ================================================================== *)
(** ** The frame the engine builds from candles, written out *)

(** The column of a library frame that the engine picks by prefix, on the
    index of that frame. *)
Definition picked (p : string) (frame : DataFrame) : option Series :=
  match first_with_prefix p frame with
  | Ok col =>
      match assoc col (df_columns frame) with
      | Some v => Some {| s_index := df_index frame; s_values := v |}
      | None => None
      end
  | Raise _ => None
  end.

(** The columns a guarded indicator adds: none without a result. *)
Definition guarded_columns (idx : list Timestamp)
    (wanted : list (string * string)) (r : option DataFrame)
    : list (string * list cell) :=
  match r with
  | None => []
  | Some frame =>
      flat_map (fun kp =>
                  match picked (snd kp) frame with
                  | Some s => [(fst kp, align idx s)]
                  | None => []
                  end) wanted
  end.

(** The indicator columns after a run on candles, in the order in which
    the code assigns them, each computed from the candles themselves. *)
Definition indicator_columns (ta : TaLib) (is_intraday : bool)
    (idx : list Timestamp) (high low close volume : list cell)
    : list (string * list cell) :=
  let High := {| s_index := idx; s_values := high |} in
  let Low := {| s_index := idx; s_values := low |} in
  let Close := {| s_index := idx; s_values := close |} in
  let Volume := {| s_index := idx; s_values := volume |} in
  ([("SMA_50", column_of idx (ta_sma ta Close 50));
    ("EMA_50", column_of idx (ta_ema ta Close 50))]
   ++ guarded_columns idx [("Supertrend", "SUPERT_")]
        (ta_supertrend ta High Low Close 10 3)
   ++ [("RSI", column_of idx (ta_rsi ta Close 14))]
   ++ guarded_columns idx [("MACD", "MACD_"); ("MACD_Signal", "MACDs_")]
        (ta_macd ta Close)
   ++ guarded_columns idx [("BB_Upper", "BBU_"); ("BB_Lower", "BBL_")]
        (ta_bbands ta Close 20)
   ++ [("Vol_SMA_5", column_of idx (ta_sma ta Volume 5))]
   ++ (if is_intraday
       then [("VWAP", column_of idx (ta_vwap ta High Low Close Volume))]
       else []))%list.

(* ================================================================== *)
(** ** Rows read as numbers *)

(** The number a cell stands for: that of a finite binary64 float. *)
Definition value_of (c : cell) : option Q :=
  match c with
  | PyFloat x => if Float64.valid x then Float64.to_Q x else None
  | PyNone => None
  end.

Definition row_value (r : Row) (key : string) : option Q :=
  match assoc key r with
  | Some c => value_of c
  | None => None
  end.

(** How many of the three daily categories of a verdict are bullish. *)
Definition bullish_count (v : Verdict) : nat :=
  count_occ bool_dec [trend_bullish v; mom_bullish v; vol_bullish v] true.

Module DemoScores.

(** A day that closes exactly on its EMA_50, on volume exactly equal to its
    five-day average, and an intraday close exactly on VWAP. *)
Definition tie_day : Row :=
  [("Close", Demo.fl 100); ("EMA_50", Demo.fl 100); ("RSI", Demo.fl 60);
   ("Volume", Demo.fl 5000); ("Vol_SMA_5", Demo.fl 5000)].

Definition tie_15 : Row := [("Close", Demo.fl 100); ("VWAP", Demo.fl 100)].

Definition tie_verdict : Verdict :=
  {| trend_bullish := false; mom_bullish := true; vol_bullish := false;
     intra_bullish := false; score := 1; classification := NO_TRADE |}.

End DemoScores.

(* ================================================================== *)
(** ** How a run of the engine may fail *)

(** The columns of a frame that [add_indicators] reads. *)
Definition engine_inputs : list string := ["High"; "Low"; "Close"; "Volume"].

(** The exceptions of the engine on the frame [df]: a search by prefix that
    found nothing, or a column it reads that [df] does not have. *)
Definition engine_failure (df : DataFrame) (e : exn) : Prop :=
  e = IndexError \/
  exists key, e = KeyError key /\ In key engine_inputs /\
              has_column key df = false.

Definition fails_as_engine {A : Type} (m : Upd A) : Prop :=
  forall df df' e, m df = (df', Raise e) -> engine_failure df e.

(* ================================================================== *)
(** ** The chart tabs (app.py, lines 205-224) *)

(** A trace of a plotly figure, with the data it was given. *)
Inductive Trace : Type :=
| Candlestick (name : string) (x : list Timestamp)
              (open high low close : list cell)
| Scatter (name : string) (x : list Timestamp) (y : list cell)
| Bar (name : string) (x : list Timestamp) (y : list cell).

Definition trace_name (t : Trace) : string :=
  match t with
  | Candlestick name _ _ _ _ _ => name
  | Scatter name _ _ => name
  | Bar name _ _ => name
  end.

(** [st.plotly_chart(fig)]: a figure is on the page once it is complete. *)
Inductive chart_event : Type :=
| st_plotly_chart (title : string) (fig : list Trace).

(** One cell of [a - b] on two columns: the binary64 difference of two
    floats, NaN where a side is [None]. *)
Definition py_sub (a b : cell) : cell :=
  match a, b with
  | PyFloat x, PyFloat y => PyFloat (SFsub Float64.prec Float64.emax x y)
  | _, _ => PyFloat Float64.nan
  end.

(** [a - b] on two columns of one frame, row by row. *)
Fixpoint column_sub (a b : list cell) : list cell :=
  match a, b with
  | x :: a', y :: b' => py_sub x y :: column_sub a' b'
  | _, _ => []
  end.

(** The figure of the first tab. *)
Definition daily_figure (df_daily : DataFrame) : result (list Trace) :=
  open <- frame_get df_daily "Open" ;;
  high <- frame_get df_daily "High" ;;
  low <- frame_get df_daily "Low" ;;
  close <- frame_get df_daily "Close" ;;
  let price :=
    Candlestick "Price" (df_index df_daily) (s_values open) (s_values high)
                (s_values low) (s_values close) in
  ema_50 <- frame_get df_daily "EMA_50" ;;
  let ema := Scatter "50 EMA" (df_index df_daily) (s_values ema_50) in
  supertrend <-
    (if existsb (String.eqb "Supertrend") (column_names df_daily) then
       st <- frame_get df_daily "Supertrend" ;;
       Ok [Scatter "Supertrend" (df_index df_daily) (s_values st)]
     else Ok []) ;;
  macd <- frame_get df_daily "MACD" ;;
  macd_signal <- frame_get df_daily "MACD_Signal" ;;
  let hist :=
    Bar "MACD Hist" (df_index df_daily)
        (column_sub (s_values macd) (s_values macd_signal)) in
  Ok ([price; ema] ++ supertrend ++ [hist])%list.

(** The figure of the second tab. *)
Definition intraday_figure (df_intra : DataFrame) : result (list Trace) :=
  open <- frame_get df_intra "Open" ;;
  high <- frame_get df_intra "High" ;;
  low <- frame_get df_intra "Low" ;;
  close <- frame_get df_intra "Close" ;;
  let price :=
    Candlestick "Intraday Price" (df_index df_intra) (s_values open)
                (s_values high) (s_values low) (s_values close) in
  vwap <-
    (if existsb (String.eqb "VWAP") (column_names df_intra) then
       w <- frame_get df_intra "VWAP" ;;
       Ok [Scatter "VWAP" (df_index df_intra) (s_values w)]
     else Ok []) ;;
  Ok ([price] ++ vwap)%list.

Definition daily_title : string := "Daily Trend Analysis".
Definition intraday_title : string := "15-Minute Entry Chart (VWAP)".

(** The two tabs, on the frames with their indicators. *)
Definition render_charts (df_daily df_intra : DataFrame)
    : list chart_event * result unit :=
  match daily_figure df_daily with
  | Raise e => ([], Raise e)
  | Ok fig =>
      match intraday_figure df_intra with
      | Raise e => ([st_plotly_chart daily_title fig], Raise e)
      | Ok fig2 =>
          ([st_plotly_chart daily_title fig;
            st_plotly_chart intraday_title fig2], Ok tt)
      end
  end.

(** Lines 147-224: the analysis and then the charts, which are drawn from
    the same two frames with their indicators. *)
Definition dashboard (ta : TaLib) (df_daily df_intra : DataFrame)
    : list ui_event * list chart_event * result Verdict :=
  match analysis ta df_daily df_intra with
  | (shown, Raise e) => (shown, [], Raise e)
  | (shown, Ok v) =>
      let df_daily := fst (add_indicators ta false df_daily) in
      let df_intra := fst (add_indicators ta true df_intra) in
      match render_charts df_daily df_intra with
      | (charts, Ok _) => (shown, charts, Ok v)
      | (charts, Raise e) => (shown, charts, Raise e)
      end
  end.

(** The columns the two figures read without asking whether they are
    there, in the order in which they read them. *)
Definition daily_chart_inputs : list string :=
  ["Open"; "High"; "Low"; "Close"; "EMA_50"; "MACD"; "MACD_Signal"].

Definition intraday_chart_inputs : list string :=
  ["Open"; "High"; "Low"; "Close"].

(** The first of [keys] that the frame does not have. *)
Definition first_missing (keys : list string) (df : DataFrame)
    : option string :=
  find (fun key => negb (has_column key df)) keys.

Module DemoCharts.

(** As [Demo.ta_echo], but without a MACD result. *)
Definition ta_no_macd : TaLib :=
  {| ta_sma := ta_sma Demo.ta_echo;
     ta_ema := ta_ema Demo.ta_echo;
     ta_supertrend := ta_supertrend Demo.ta_echo;
     ta_rsi := ta_rsi Demo.ta_echo;
     ta_macd := fun _ => None;
     ta_bbands := ta_bbands Demo.ta_echo;
     ta_vwap := ta_vwap Demo.ta_echo |}.

End DemoCharts.

(* ================================================================== *)
(** ** Start-up: secrets, lock, login, tokens (app.py, lines 16-67) *)

(** [st.secrets]: no secrets file at all, or its table. *)
Definition SecretsFile : Type := option (list (string * string)).

(** The two exceptions the script catches around its reads of the
    secrets. *)
Inductive secrets_error : Type :=
| FileNotFoundError
| MissingKey (key : string).

Record Config : Type := {
  API_KEY : string;
  CLIENT_CODE : string;
  PASSWORD : string;
  TOTP_SECRET : string;
  APP_PASSWORD : string
}.

(** [st.secrets[key]] *)
Definition secret (file : SecretsFile) (key : string)
    : string + secrets_error :=
  match file with
  | None => inr FileNotFoundError
  | Some table =>
      match assoc key table with
      | Some v => inl v
      | None => inr (MissingKey key)
      end
  end.

Definition and_then {A B : Type} (r : A + secrets_error)
    (k : A -> B + secrets_error) : B + secrets_error :=
  match r with
  | inl a => k a
  | inr e => inr e
  end.

(** Lines 17-21, the body of the [try]. *)
Definition load_secrets (file : SecretsFile) : Config + secrets_error :=
  and_then (secret file "API_KEY") (fun api_key =>
  and_then (secret file "CLIENT_CODE") (fun client_code =>
  and_then (secret file "PASSWORD") (fun password =>
  and_then (secret file "TOTP_SECRET") (fun totp_secret =>
  and_then (secret file "APP_PASSWORD") (fun app_password =>
  inl {| API_KEY := api_key; CLIENT_CODE := client_code;
         PASSWORD := password; TOTP_SECRET := totp_secret;
         APP_PASSWORD := app_password |}))))).

(** What [generateSession] returns: [None], or a dictionary that may have
    a status and a message. *)
Inductive Reply : Type :=
| ReplyNone
| ReplyDict (status : option bool) (message : option string).

(** [data['status']] and [data['message']] *)
Definition reply_status (data : Reply) : result bool :=
  match data with
  | ReplyNone => Raise TypeError
  | ReplyDict (Some b) _ => Ok b
  | ReplyDict None _ => Raise (KeyError "status")
  end.

Definition reply_message (data : Reply) : result string :=
  match data with
  | ReplyNone => Raise TypeError
  | ReplyDict _ (Some m) => Ok m
  | ReplyDict _ None => Raise (KeyError "message")
  end.

(** The object [SmartConnect] makes: it opens sessions, and it is the
    session that [fetch_data] calls. *)
Record SmartApi : Type := {
  generateSession : string -> string -> string -> result Reply;
  candle_session : Session
}.

(** The broker library and the one-time-code library, as the script uses
    them. *)
Record Broker : Type := {
  SmartConnect : string -> result SmartApi;
  totp_now : string -> result string
}.

(** What start-up puts on the page. *)
Inductive startup_event : Type :=
| secrets_not_found
| missing_secret (key : string)
| password_input
| lock_warning
| login_failed (message : string)
| connection_error (e : exn)
| token_file_warning
| selector_header
| stock_list_empty
| stock_selectbox (options : list string)
| analyze_button
| analysis_output (shown : list ui_event) (charts : list chart_event).

(** Lines 39-51. *)
Definition login_body (broker : Broker) (cfg : Config)
    : result (option SmartApi * list startup_event) :=
  smartApi <- SmartConnect broker (API_KEY cfg) ;;
  totp <- totp_now broker (TOTP_SECRET cfg) ;;
  data <- generateSession smartApi (CLIENT_CODE cfg) (PASSWORD cfg) totp ;;
  status <- reply_status data ;;
  if status : bool then Ok (Some smartApi, [])
  else
    message <- reply_message data ;;
    Ok (None, [login_failed message]).

Definition login (broker : Broker) (cfg : Config)
    : option SmartApi * list startup_event :=
  match login_body broker cfg with
  | Ok r => r
  | Raise e => (None, [connection_error e])
  end.

(** A row of the token file, which has the three columns the script reads:
    a name, a numeric token and a symbol. *)
Record TokenRow : Type := {
  name : string;
  token : Z;
  symbol : string
}.

(** Lines 57-64: the table read from the file, or the empty table with a
    warning when reading fails. *)
Definition load_tokens (read_csv : result (list TokenRow))
    : list TokenRow * list startup_event :=
  match read_csv with
  | Ok table => (table, [])
  | Raise _ => ([], [token_file_warning])
  end.

(* ================================================================== *)
(** ** The stock selector (app.py, lines 126-135) *)

(** [Series.unique()]: each value once, in the order of first
    appearance. *)
Fixpoint unique (l : list string) : list string :=
  match l with
  | [] => []
  | x :: l' => x :: filter (fun y => negb (String.eqb y x)) (unique l')
  end.

(** The selectbox gives back one of its options: the one picked, the
    first one by default. *)
Definition selectbox (options : list string) (choice : nat) : string :=
  nth choice options (hd "" options).

(** [tokens_df[tokens_df['name'] == stock_name].iloc[0]] *)
Definition first_named (table : list TokenRow) (stock_name : string)
    : result TokenRow :=
  match filter (fun r => String.eqb (name r) stock_name) table with
  | [] => Raise IndexError
  | row :: _ => Ok row
  end.

(** [str(row['token'])] *)
Definition str (z : Z) : string := NilZero.string_of_int (Z.to_int z).

(* ================================================================== *)
(** ** One run of the script *)

(** What a run finds around it. *)
Record World : Type := {
  secrets : SecretsFile;
  typed_password : string;
  broker : Broker;
  read_csv : result (list TokenRow);
  choice : nat;
  pressed : bool;
  ta_lib : TaLib;
  to_datetime : raw -> option Timestamp;
  float_of_string : string -> option float;
  clock : Timestamp
}.

(** How a run ends: [st.stop()], the end of the script, or an exception
    that nothing catches. *)
Inductive ending : Type :=
| Stopped
| Finished
| Crashed (e : exn).

(** Lines 137-227 with the charts, from the two results of [fetch_data]. *)
Definition analyze_and_chart (ta : TaLib)
    (df_daily df_intra : option DataFrame)
    : list ui_event * list chart_event * result (option Verdict) :=
  match df_daily, df_intra with
  | Some d, Some i =>
      if negb (df_empty d) && negb (df_empty i) then
        match dashboard ta d i with
        | (shown, charts, Ok v) => (shown, charts, Ok (Some v))
        | (shown, charts, Raise e) => (shown, charts, Raise e)
        end
      else ([st_error fetch_failed_msg], [], Ok None)
  | _, _ => ([st_error fetch_failed_msg], [], Ok None)
  end.

(** Lines 126-227, once the lock is open. *)
Definition selector_and_analysis (w : World) (api : option Session)
    (tokens_df : list TokenRow) : list startup_event * ending :=
  match tokens_df with
  | [] => ([selector_header; stock_list_empty], Stopped)
  | _ :: _ =>
      let options := unique (map name tokens_df) in
      let stock_name := selectbox options (choice w) in
      match first_named tokens_df stock_name with
      | Raise e => ([selector_header; stock_selectbox options], Crashed e)
      | Ok row =>
          let token := str (token row) in
          if pressed w then
            let df_daily :=
              fetch_data (to_datetime w) (float_of_string w) (clock w) api
                         token "ONE_DAY" 365 in
            let df_intra :=
              fetch_data (to_datetime w) (float_of_string w) (clock w) api
                         token "FIFTEEN_MINUTE" 10 in
            match analyze_and_chart (ta_lib w) df_daily df_intra with
            | (shown, charts, r) =>
                ([selector_header; stock_selectbox options; analyze_button;
                  analysis_output shown charts],
                 match r with
                 | Ok _ => Finished
                 | Raise e => Crashed e
                 end)
            end
          else
            ([selector_header; stock_selectbox options; analyze_button],
             Finished)
      end
  end.

(** The whole script, top to bottom, on its first run in a process: the
    results that Streamlit keeps for later runs are computed here. *)
Definition run (w : World) : list startup_event * ending :=
  match load_secrets (secrets w) with
  | inr FileNotFoundError => ([secrets_not_found], Stopped)
  | inr (MissingKey key) => ([missing_secret key], Stopped)
  | inl cfg =>
      if negb (String.eqb (typed_password w) (APP_PASSWORD cfg)) then
        ([password_input; lock_warning], Stopped)
      else
        let (api, login_events) := login (broker w) cfg in
        let (tokens_df, token_events) := load_tokens (read_csv w) in
        let (events, how) :=
          selector_and_analysis w (option_map candle_session api)
                                tokens_df in
        ((password_input :: login_events ++ token_events ++ events)%list,
         how)
  end.

(** The keys of the secrets in the order in which the script reads them. *)
Definition secret_keys : list string :=
  ["API_KEY"; "CLIENT_CODE"; "PASSWORD"; "TOTP_SECRET"; "APP_PASSWORD"].

Definition has_secret (table : list (string * string)) (key : string)
    : bool :=
  match assoc key table with Some _ => true | None => false end.

Module DemoStart.

Definition table : list (string * string) :=
  [("API_KEY", "k"); ("CLIENT_CODE", "c"); ("PASSWORD", "1234");
   ("TOTP_SECRET", "s"); ("APP_PASSWORD", "open sesame")].

(** The secrets without the one-time-code secret. *)
Definition no_totp : list (string * string) :=
  [("API_KEY", "k"); ("CLIENT_CODE", "c"); ("PASSWORD", "1234");
   ("APP_PASSWORD", "open sesame")].

Definition config : Config :=
  {| API_KEY := "k"; CLIENT_CODE := "c"; PASSWORD := "1234";
     TOTP_SECRET := "s"; APP_PASSWORD := "open sesame" |}.

(** A gateway object that accepts every login and serves two candles. *)
Definition smart_api : SmartApi :=
  {| generateSession := fun _ _ _ => Ok (ReplyDict (Some true) (Some "ok"));
     candle_session := Demo.serving DemoFetch.later_first |}.

(** One that refuses the login. *)
Definition refusing : SmartApi :=
  {| generateSession :=
       fun _ _ _ => Ok (ReplyDict (Some false) (Some "Invalid totp"));
     candle_session := Demo.serving DemoFetch.later_first |}.

Definition broker_of (api : SmartApi) : Broker :=
  {| SmartConnect := fun _ => Ok api; totp_now := fun _ => Ok "123456" |}.

Definition stocks : list TokenRow :=
  [{| name := "SBIN"; token := 3045; symbol := "SBIN-EQ" |};
   {| name := "INFY"; token := 1594; symbol := "INFY-EQ" |};
   {| name := "SBIN"; token := 9999; symbol := "SBIN-BE" |}].

Definition world (typed : string) (api : SmartApi)
    (csv : result (list TokenRow)) (press : bool) : World :=
  {| secrets := Some table;
     typed_password := typed;
     broker := broker_of api;
     read_csv := csv;
     choice := 0;
     pressed := press;
     ta_lib := Demo.ta_echo;
     to_datetime := Demo.to_datetime;
     float_of_string := Demo.float_of_string;
     clock := 0 |}.

End DemoStart.

(* ================================================================== *)
(** * Properties *)

(** ** Comparison of binary64 floats against their rational values *)

Module Float64Facts.

Import Float64.

Lemma digits2_pos_bounds (m : positive) :
  2 ^ (Zpos (digits2_pos m) - 1) <= Zpos m < 2 ^ Zpos (digits2_pos m).
Proof.
  induction m as [p IH | p IH | ]; simpl digits2_pos.
  - rewrite Pos2Z.inj_succ, (Pos2Z.inj_xI p).
    replace (Z.succ (Zpos (digits2_pos p)) - 1)
      with (Z.succ (Zpos (digits2_pos p) - 1)) by lia.
    rewrite !Z.pow_succ_r by lia. lia.
  - rewrite Pos2Z.inj_succ, (Pos2Z.inj_xO p).
    replace (Z.succ (Zpos (digits2_pos p)) - 1)
      with (Z.succ (Zpos (digits2_pos p) - 1)) by lia.
    rewrite !Z.pow_succ_r by lia. lia.
  - cbn. lia.
Qed.

(** What canonical form says of a mantissa and its exponent. *)
Lemma bounded_inv (m : positive) (e : Z) :
  bounded prec emax m e = true ->
  -1074 <= e <= 971 /\
  Zpos m < 2 ^ 53 /\
  (-1074 < e -> 2 ^ 52 <= Zpos m).
Proof.
  unfold bounded, canonical_mantissa, fexp, SpecFloat.emin, prec, emax.
  intros H. apply andb_true_iff in H. destruct H as [Hc He].
  apply Z.eqb_eq in Hc. apply Z.leb_le in He.
  pose proof (digits2_pos_bounds m) as [Hlo Hhi].
  set (d := Zpos (digits2_pos m)) in *.
  assert (Hd : d <= 53) by lia.
  split; [lia | split].
  - apply Z.lt_le_trans with (2 ^ d); [exact Hhi |].
    apply Z.pow_le_mono_r; lia.
  - intros Hn. assert (d = 53) by lia.
    replace 52 with (d - 1) by lia. exact Hlo.
Qed.

Lemma mag_pos (m : positive) (e : Z) : -1074 <= e -> 0 < mag m e.
Proof.
  intros He. unfold mag. apply Z.mul_pos_pos; [lia |].
  apply Z.pow_pos_nonneg; lia.
Qed.

Lemma mag_lt (m1 m2 : positive) (e1 e2 : Z) :
  bounded prec emax m1 e1 = true ->
  bounded prec emax m2 e2 = true ->
  e1 < e2 -> mag m1 e1 < mag m2 e2.
Proof.
  intros H1 H2 Hlt.
  apply bounded_inv in H1. destruct H1 as (He1 & Hm1 & _).
  apply bounded_inv in H2. destruct H2 as (He2 & _ & Hm2).
  specialize (Hm2 ltac:(lia)).
  unfold mag.
  assert (Hp1 : 0 < 2 ^ (e1 + 1074)) by (apply Z.pow_pos_nonneg; lia).
  assert (Hp2 : 0 < 2 ^ (e2 + 1074)) by (apply Z.pow_pos_nonneg; lia).
  apply Z.lt_le_trans with (2 ^ 53 * 2 ^ (e1 + 1074)).
  - apply Z.mul_lt_mono_pos_r; assumption.
  - apply Z.le_trans with (2 ^ 52 * 2 ^ (e2 + 1074)).
    + rewrite <- !Z.pow_add_r by lia.
      apply Z.pow_le_mono_r; lia.
    + apply Z.mul_le_mono_nonneg_r; lia.
Qed.

Lemma mag_compare (m1 m2 : positive) (e1 e2 : Z) :
  bounded prec emax m1 e1 = true ->
  bounded prec emax m2 e2 = true ->
  match e1 ?= e2 with
  | Lt => Lt
  | Gt => Gt
  | Eq => Pos.compare_cont Eq m1 m2
  end = (mag m1 e1 ?= mag m2 e2).
Proof.
  intros H1 H2. destruct (Z.compare_spec e1 e2) as [Heq | Hlt | Hgt].
  - subst e2. unfold mag.
    apply bounded_inv in H1. destruct H1 as (He1 & _).
    assert (Hp : 0 < 2 ^ (e1 + 1074)) by (apply Z.pow_pos_nonneg; lia).
    change (Pos.compare_cont Eq m1 m2) with (Zpos m1 ?= Zpos m2).
    destruct (Z.compare_spec (Zpos m1) (Zpos m2)) as [E | L | G]; symmetry.
    + apply Z.compare_eq_iff. now rewrite E.
    + apply Z.compare_lt_iff. now apply Z.mul_lt_mono_pos_r.
    + apply Z.compare_gt_iff. now apply Z.mul_lt_mono_pos_r.
  - symmetry. apply Z.compare_lt_iff. now apply mag_lt.
  - symmetry. apply Z.compare_gt_iff. now apply mag_lt.
Qed.

(** On binary64 numbers without infinities and NaN, [SFcompare] is the
    order of the integers [scaled]. *)
Lemma compare_scaled (x y : float) (p q : Q) :
  valid x = true -> valid y = true ->
  to_Q x = Some p -> to_Q y = Some q ->
  SFcompare x y = Some (scaled x ?= scaled y).
Proof.
  intros Vx Vy Hx Hy.
  destruct x as [sx | sx | | sx mx ex]; try discriminate Hx;
    destruct y as [sy | sy | | sy my ey]; try discriminate Hy;
    cbn [SFcompare scaled valid valid_binary] in *.
  - reflexivity.
  - pose proof (bounded_inv _ _ Vy) as (He & _).
    pose proof (mag_pos my ey ltac:(lia)) as Hp.
    destruct sy; cbn [cond_Zopp]; f_equal; symmetry.
    + apply Z.compare_gt_iff. lia.
    + apply Z.compare_lt_iff. lia.
  - pose proof (bounded_inv _ _ Vx) as (He & _).
    pose proof (mag_pos mx ex ltac:(lia)) as Hp.
    destruct sx; cbn [cond_Zopp]; f_equal; symmetry.
    + apply Z.compare_lt_iff. lia.
    + apply Z.compare_gt_iff. lia.
  - pose proof (bounded_inv _ _ Vx) as (Hex & _).
    pose proof (bounded_inv _ _ Vy) as (Hey & _).
    pose proof (mag_pos mx ex ltac:(lia)) as Hpx.
    pose proof (mag_pos my ey ltac:(lia)) as Hpy.
    destruct sx, sy; cbn [cond_Zopp]; f_equal.
    + rewrite Z.compare_opp.
      rewrite <- (mag_compare my mx ey ex Vy Vx).
      rewrite (Z.compare_antisym ey ex).
      destruct (ey ?= ex); cbn [CompOpp]; try reflexivity.
      rewrite Pos.compare_cont_antisym. reflexivity.
    + symmetry. apply Z.compare_lt_iff. lia.
    + symmetry. apply Z.compare_gt_iff. lia.
    + apply mag_compare; assumption.
Qed.

Lemma cond_Zopp_mul (s : bool) (a b : Z) :
  cond_Zopp s (a * b) = cond_Zopp s a * b.
Proof. destruct s; cbn [cond_Zopp]; lia. Qed.

Lemma to_Q_scaled (x : float) (p : Q) :
  valid x = true -> to_Q x = Some p ->
  (p == inject_Z (scaled x) * Qpower 2 (-1074))%Q.
Proof.
  intros V H.
  destruct x as [s | s | | s m e]; try discriminate H;
    cbn [to_Q scaled] in *; injection H as <-.
  - rewrite Qmult_0_l. reflexivity.
  - cbn [valid valid_binary] in V.
    apply bounded_inv in V. destruct V as (He & _).
    unfold mag. rewrite cond_Zopp_mul, inject_Z_mult.
    rewrite Zpower_Qpower by lia.
    rewrite <- Qmult_assoc.
    rewrite <- Qpower_plus by discriminate.
    replace (e + 1074 + -1074) with e by lia. reflexivity.
Qed.

(** [x < y] on finite binary64 numbers is the order of their values. *)
Lemma ltb_spec (x y : float) (p q : Q) :
  valid x = true -> valid y = true ->
  to_Q x = Some p -> to_Q y = Some q ->
  ltb x y = true <-> (p < q)%Q.
Proof.
  intros Vx Vy Hx Hy.
  unfold ltb, SFltb. rewrite (compare_scaled x y p q Vx Vy Hx Hy).
  rewrite (to_Q_scaled x p Vx Hx), (to_Q_scaled y q Vy Hy).
  rewrite Qmult_lt_r by (apply Qpower_0_lt; reflexivity).
  rewrite <- Zlt_Qlt.
  destruct (Z.compare_spec (scaled x) (scaled y)); split; intros;
    try reflexivity; try discriminate; lia.
Qed.

End Float64Facts.

(* ================================================================== *)
(** ** The scorer *)

Section ScorerFacts.

(** The fields the scorer reads, each a float, make it return. *)
Lemma rule_of_three_inv (last_day last_15 : Row) (v : Verdict) :
  rule_of_three last_day last_15 = Ok v ->
  exists close ema_50 rsi volume vol_sma_5 close_15 vwap,
    assoc "Close" last_day = Some (PyFloat close) /\
    assoc "EMA_50" last_day = Some (PyFloat ema_50) /\
    assoc "RSI" last_day = Some (PyFloat rsi) /\
    assoc "Volume" last_day = Some (PyFloat volume) /\
    assoc "Vol_SMA_5" last_day = Some (PyFloat vol_sma_5) /\
    assoc "Close" last_15 = Some (PyFloat close_15) /\
    assoc "VWAP" last_15 = Some (PyFloat vwap) /\
    v = let t := Float64.ltb ema_50 close in
        let m := Float64.ltb f50 rsi && Float64.ltb rsi f70 in
        let o := Float64.ltb vol_sma_5 volume in
        let g := Float64.ltb vwap close_15 in
        let s := bump o (bump m (bump t 0)) in
        {| trend_bullish := t; mom_bullish := m; vol_bullish := o;
           intra_bullish := g; score := s;
           classification := classify s g |}.
Proof.
  unfold rule_of_three, row_get, rsi_in_band, py_lt, py_gt, bind.
  intros H.
  repeat match type of H with
         | context [match assoc ?k ?r with _ => _ end] =>
             destruct (assoc k r) as [[|?x]|];
             cbv beta iota in H; try discriminate H
         end.
  all: match type of H with
  | context [if Float64.ltb f50 ?r then _ else _] =>
      destruct (Float64.ltb f50 r) eqn:E; cbv beta iota in H
  end; try discriminate H; injection H as <-;
    do 7 eexists; repeat (split; [reflexivity |]);
    cbv zeta; rewrite E; reflexivity.
Qed.

Lemma bump_range (c : bool) (s lo hi : Z) :
  lo <= s <= hi -> lo <= bump c s <= hi + 1.
Proof. destruct c; cbn [bump]; lia. Qed.

Lemma score_range (last_day last_15 : Row) (v : Verdict) :
  rule_of_three last_day last_15 = Ok v -> 0 <= score v <= 3.
Proof.
  intros H. apply rule_of_three_inv in H.
  destruct H as (c & e & r & vo & vs & c15 & w & _ & _ & _ & _ & _ & _ & _ & ->).
  cbn [score].
  pose proof (bump_range (Float64.ltb e c) 0 0 0 ltac:(lia)) as H1.
  pose proof (bump_range (Float64.ltb f50 r && Float64.ltb r f70) _ _ _ H1)
    as H2.
  pose proof (bump_range (Float64.ltb vs vo) _ _ _ H2) as H3.
  lia.
Qed.

Lemma classification_eq (last_day last_15 : Row) (v : Verdict) :
  rule_of_three last_day last_15 = Ok v ->
  classification v = classify (score v) (intra_bullish v).
Proof.
  intros H. apply rule_of_three_inv in H.
  destruct H as (c & e & r & vo & vs & c15 & w & _ & _ & _ & _ & _ & _ & _ & ->).
  reflexivity.
Qed.

(** The banner as a function of the score and the gate. *)
Lemma classify_spec (s : Z) (g : bool) :
  0 <= s <= 3 ->
  (classify s g = STRONG_BUY <-> s = 3 /\ g = true) /\
  (classify s g = NO_TRADE <-> s <= 1) /\
  (classify s g = WATCHLIST <-> s = 2 \/ (s = 3 /\ g = false)).
Proof.
  intros Hs. unfold classify.
  destruct (Z.eqb_spec s 3) as [E3 | N3]; destruct g; cbn [andb];
    try destruct (Z.leb_spec s 1) as [L1 | G1];
    repeat split; intros; try discriminate; try lia;
    try reflexivity; try (split; [lia | reflexivity]);
    try (right; split; [lia | reflexivity]);
    try (left; lia);
    try (destruct H as [? | [? ?]]; first [lia | discriminate]);
    try (destruct H; first [lia | discriminate]).
Qed.

End ScorerFacts.

Section ScorerTotality.

Variables (last_day last_15 : Row).
Variables (close ema_50 rsi volume vol_sma_5 close_15 vwap : float).
Hypothesis Hclose : assoc "Close" last_day = Some (PyFloat close).
Hypothesis Hema : assoc "EMA_50" last_day = Some (PyFloat ema_50).
Hypothesis Hrsi : assoc "RSI" last_day = Some (PyFloat rsi).
Hypothesis Hvolume : assoc "Volume" last_day = Some (PyFloat volume).
Hypothesis Hsma : assoc "Vol_SMA_5" last_day = Some (PyFloat vol_sma_5).
Hypothesis Hclose15 : assoc "Close" last_15 = Some (PyFloat close_15).
Hypothesis Hvwap : assoc "VWAP" last_15 = Some (PyFloat vwap).

(** On rows whose seven fields are floats the scorer returns. *)
Lemma rule_of_three_ok :
  rule_of_three last_day last_15 =
  Ok (let t := Float64.ltb ema_50 close in
      let m := Float64.ltb f50 rsi && Float64.ltb rsi f70 in
      let o := Float64.ltb vol_sma_5 volume in
      let g := Float64.ltb vwap close_15 in
      let s := bump o (bump m (bump t 0)) in
      {| trend_bullish := t; mom_bullish := m; vol_bullish := o;
         intra_bullish := g; score := s;
         classification := classify s g |}).
Proof.
  unfold rule_of_three, row_get, rsi_in_band, py_lt, py_gt, bind.
  rewrite Hclose, Hema, Hrsi, Hvolume, Hsma, Hclose15, Hvwap.
  cbv zeta. destruct (Float64.ltb f50 rsi); reflexivity.
Qed.

End ScorerTotality.

(** When the scorer raises, it is on a missing key or on a comparison with
    [None]. *)
Lemma rule_of_three_raises (last_day last_15 : Row) (e : exn) :
  rule_of_three last_day last_15 = Raise e ->
  e = TypeError \/ exists key, e = KeyError key.
Proof.
  unfold rule_of_three, row_get, rsi_in_band, py_lt, py_gt, bind.
  intros H.
  repeat match type of H with
         | context [match assoc ?k ?r with _ => _ end] =>
             destruct (assoc k r) as [[|?x]|];
             cbv beta iota in H; try discriminate H
         | context [if Float64.ltb f50 ?r then _ else _] =>
             destruct (Float64.ltb f50 r); cbv beta iota in H;
             try discriminate H
         end;
    injection H as <-; first [left; reflexivity | right; eexists; reflexivity].
Qed.

Lemma unavailable_float (r : Row) (key : string) (x : float) :
  assoc key r = Some (PyFloat x) -> unavailable r key = false.
Proof. unfold unavailable. now intros ->. Qed.

(** The two constants of the momentum rule are the numbers 50 and 70. *)
Lemma f50_value :
  exists p, Float64.to_Q f50 = Some p /\ (p == 50)%Q.
Proof. eexists. split; [reflexivity | vm_compute; reflexivity]. Qed.

Lemma f70_value :
  exists p, Float64.to_Q f70 = Some p /\ (p == 70)%Q.
Proof. eexists. split; [reflexivity | vm_compute; reflexivity]. Qed.

(** [50 < x < 70] on a binary64 number, read on its value. *)
Lemma band_spec (x : float) :
  Float64.valid x = true ->
  Float64.ltb f50 x && Float64.ltb x f70 = true <->
  exists q, Float64.to_Q x = Some q /\ (50 < q /\ q < 70)%Q.
Proof.
  intros V.
  destruct f50_value as (p50 & E50 & V50).
  destruct f70_value as (p70 & E70 & V70).
  destruct (Float64.to_Q x) as [q |] eqn:Hq.
  - rewrite andb_true_iff.
    rewrite (Float64Facts.ltb_spec f50 x p50 q eq_refl V E50 Hq).
    rewrite (Float64Facts.ltb_spec x f70 q p70 V eq_refl Hq E70).
    rewrite V50, V70. split.
    + intros HH. exists q. split; [reflexivity | exact HH].
    + intros (q' & Eq' & HH). injection Eq' as <-. exact HH.
  - split.
    + destruct x as [s | [|] | | s m e]; try discriminate Hq;
        cbn; intros; discriminate.
    + intros (q & Eq' & _). discriminate Eq'.
Qed.

(** Rows that lack no field hold seven floats. *)
Lemma complete_rows (last_day last_15 : Row) :
  lacks_field last_day last_15 = false ->
  exists close ema_50 rsi volume vol_sma_5 close_15 vwap,
    assoc "Close" last_day = Some (PyFloat close) /\
    assoc "EMA_50" last_day = Some (PyFloat ema_50) /\
    assoc "RSI" last_day = Some (PyFloat rsi) /\
    assoc "Volume" last_day = Some (PyFloat volume) /\
    assoc "Vol_SMA_5" last_day = Some (PyFloat vol_sma_5) /\
    assoc "Close" last_15 = Some (PyFloat close_15) /\
    assoc "VWAP" last_15 = Some (PyFloat vwap).
Proof.
  unfold lacks_field. cbn [existsb daily_fields intraday_fields].
  unfold unavailable. intros Hu.
  destruct (assoc "Close" last_day) as [[|c]|]; try discriminate Hu.
  destruct (assoc "EMA_50" last_day) as [[|e]|]; try discriminate Hu.
  destruct (assoc "RSI" last_day) as [[|r]|]; try discriminate Hu.
  destruct (assoc "Volume" last_day) as [[|vo]|]; try discriminate Hu.
  destruct (assoc "Vol_SMA_5" last_day) as [[|vs]|]; try discriminate Hu.
  destruct (assoc "Close" last_15) as [[|c15]|]; try discriminate Hu.
  destruct (assoc "VWAP" last_15) as [[|w]|]; try discriminate Hu.
  exists c, e, r, vo, vs, c15, w. repeat split; reflexivity.
Qed.

(** On rows that lack no field the scorer returns a verdict. *)
Lemma rule_of_three_total (last_day last_15 : Row) :
  lacks_field last_day last_15 = false ->
  exists v, rule_of_three last_day last_15 = Ok v.
Proof.
  intros Hu. apply complete_rows in Hu.
  destruct Hu as (c & e & r & vo & vs & c15 & w
                  & Hc & He & Hr & Hvo & Hvs & Hc15 & Hw).
  eexists.
  exact (rule_of_three_ok _ _ _ _ _ _ _ _ _ Hc He Hr Hvo Hvs Hc15 Hw).
Qed.

(** C1. On every pair of last rows that lack no field the scorer produces
    a verdict.  In every verdict it produces, the intraday gate is the
    comparison [Close > VWAP] of the intraday row, and the classification is
    STRONG_BUY exactly when the score is 3 and the gate is bullish, NO_TRADE
    exactly when the score is at most 1 whatever the gate, and WATCHLIST in
    the remaining cases: score 2, or score 3 with the gate bearish. *)
Theorem C1_classification (last_day last_15 : Row) :
  (lacks_field last_day last_15 = false ->
   exists v, rule_of_three last_day last_15 = Ok v) /\
  (forall v, rule_of_three last_day last_15 = Ok v ->
     (exists close_15 vwap,
         assoc "Close" last_15 = Some (PyFloat close_15) /\
         assoc "VWAP" last_15 = Some (PyFloat vwap) /\
         intra_bullish v = Float64.ltb vwap close_15) /\
     (classification v = STRONG_BUY <->
        score v = 3 /\ intra_bullish v = true) /\
     (classification v = NO_TRADE <-> score v <= 1) /\
     (classification v = WATCHLIST <->
        score v = 2 \/ (score v = 3 /\ intra_bullish v = false))).
Proof.
  split; [apply rule_of_three_total |].
  intros v H.
  pose proof (score_range _ _ _ H) as Hs.
  pose proof (classification_eq _ _ _ H) as Hc.
  split.
  - apply rule_of_three_inv in H.
    destruct H as (c & e & r & vo & vs & c15 & w
                   & _ & _ & _ & _ & _ & Hc15 & Hw & ->).
    exists c15, w. repeat split; assumption.
  - rewrite Hc. apply classify_spec. exact Hs.
Qed.

Lemma C1_classification_witness :
  (exists v, rule_of_three Demo.bull_day Demo.bull_15 = Ok v) /\
  (classification Demo.bull_verdict = STRONG_BUY <->
     score Demo.bull_verdict = 3 /\ intra_bullish Demo.bull_verdict = true) /\
  (classification Demo.bull_verdict = NO_TRADE <->
     score Demo.bull_verdict <= 1) /\
  (classification Demo.bull_verdict = WATCHLIST <->
     score Demo.bull_verdict = 2 \/
     (score Demo.bull_verdict = 3 /\ intra_bullish Demo.bull_verdict = false)).
Proof.
  destruct (C1_classification Demo.bull_day Demo.bull_15) as [T C].
  split.
  - apply T. vm_compute. reflexivity.
  - apply (C Demo.bull_verdict). vm_compute. reflexivity.
Defined.

(** The banner at each score, gate open and gate shut. *)
Example classify_table :
  map (fun s => (classify s true, classify s false)) [0; 1; 2; 3]
  = [(NO_TRADE, NO_TRADE); (NO_TRADE, NO_TRADE);
     (WATCHLIST, WATCHLIST); (STRONG_BUY, WATCHLIST)].
Proof. reflexivity. Qed.

(** C2. On every pair of last rows that lack no field the scorer produces
    a verdict.  In every verdict it produces, the momentum category is the
    chained comparison [50 < RSI < 70] on the RSI of the daily last row;
    for an RSI that is a binary64 number it is bullish if and only if the
    RSI is finite with a value strictly between 50 and 70, so an RSI equal
    to 50 or equal to 70 is not bullish. *)
Theorem C2_momentum_band (last_day last_15 : Row) :
  (lacks_field last_day last_15 = false ->
   exists v, rule_of_three last_day last_15 = Ok v) /\
  (forall v, rule_of_three last_day last_15 = Ok v ->
   exists rsi,
     assoc "RSI" last_day = Some (PyFloat rsi) /\
     mom_bullish v = Float64.ltb f50 rsi && Float64.ltb rsi f70 /\
     (Float64.valid rsi = true ->
      (mom_bullish v = true <->
         exists q, Float64.to_Q rsi = Some q /\ (50 < q /\ q < 70)%Q) /\
      (forall q, Float64.to_Q rsi = Some q ->
         (q == 50 \/ q == 70)%Q -> mom_bullish v = false))).
Proof.
  split; [apply rule_of_three_total |].
  intros v H. apply rule_of_three_inv in H.
  destruct H as (c & e & r & vo & vs & c15 & w
                 & _ & _ & Hr & _ & _ & _ & _ & ->).
  exists r. cbn [mom_bullish]. split; [exact Hr | split; [reflexivity |]].
  intros V. pose proof (band_spec r V) as B. split; [exact B |].
  intros q Hq Hb.
  destruct (Float64.ltb f50 r && Float64.ltb r f70) eqn:E; [| reflexivity].
  exfalso. destruct B as [B _]. destruct (B eq_refl) as (q' & Hq' & Hlo & Hhi).
  rewrite Hq in Hq'. injection Hq' as <-.
  destruct Hb as [Hb | Hb]; rewrite Hb in *.
  - exact (Qlt_irrefl _ Hlo).
  - exact (Qlt_irrefl _ Hhi).
Qed.

Lemma C2_momentum_band_witness :
  (exists v, rule_of_three Demo.bull_day Demo.bull_15 = Ok v) /\
  exists rsi,
    assoc "RSI" Demo.bull_day = Some (PyFloat rsi) /\
    mom_bullish Demo.bull_verdict
      = Float64.ltb f50 rsi && Float64.ltb rsi f70 /\
    (Float64.valid rsi = true ->
     (mom_bullish Demo.bull_verdict = true <->
        exists q, Float64.to_Q rsi = Some q /\ (50 < q /\ q < 70)%Q) /\
     (forall q, Float64.to_Q rsi = Some q ->
        (q == 50 \/ q == 70)%Q -> mom_bullish Demo.bull_verdict = false)).
Proof.
  destruct (C2_momentum_band Demo.bull_day Demo.bull_15) as [T C].
  split.
  - apply T. vm_compute. reflexivity.
  - apply (C Demo.bull_verdict). vm_compute. reflexivity.
Defined.

(** The two ends of the band themselves, and their neighbours. *)
Example rsi_exactly_50_or_70 :
  rsi_in_band (PyFloat f50) = Ok false /\
  rsi_in_band (PyFloat f70) = Ok false /\
  rsi_in_band (Demo.fl 51) = Ok true /\
  rsi_in_band (Demo.fl 69) = Ok true.
Proof. repeat split; vm_compute; reflexivity. Qed.

(** C3. On every pair of last rows that lack no field the scorer produces
    a verdict.  In every verdict it produces, trend is [Close > EMA_50],
    momentum is [50 < RSI < 70] and volume is [Volume > Vol_SMA_5], all on
    the daily last row; the score is the number of these three that are
    bullish, hence an integer from 0 to 3; and the intraday row does not
    enter it: any other intraday row gives the same score. *)
Theorem C3_score_counts (last_day last_15 : Row) :
  (lacks_field last_day last_15 = false ->
   exists v, rule_of_three last_day last_15 = Ok v) /\
  (forall v, rule_of_three last_day last_15 = Ok v ->
     (exists close ema_50 rsi volume vol_sma_5,
         assoc "Close" last_day = Some (PyFloat close) /\
         assoc "EMA_50" last_day = Some (PyFloat ema_50) /\
         assoc "RSI" last_day = Some (PyFloat rsi) /\
         assoc "Volume" last_day = Some (PyFloat volume) /\
         assoc "Vol_SMA_5" last_day = Some (PyFloat vol_sma_5) /\
         trend_bullish v = Float64.ltb ema_50 close /\
         mom_bullish v = Float64.ltb f50 rsi && Float64.ltb rsi f70 /\
         vol_bullish v = Float64.ltb vol_sma_5 volume) /\
     score v = Z.of_nat (count_occ bool_dec
                           [trend_bullish v; mom_bullish v; vol_bullish v]
                           true) /\
     0 <= score v <= 3 /\
     (forall last_15' v',
         rule_of_three last_day last_15' = Ok v' -> score v' = score v)).
Proof.
  split; [apply rule_of_three_total |].
  intros v H. pose proof (score_range _ _ _ H) as Hs.
  apply rule_of_three_inv in H.
  destruct H as (c & e & r & vo & vs & c15 & w
                 & Hc & He & Hr & Hvo & Hvs & _ & _ & ->).
  cbn [trend_bullish mom_bullish vol_bullish score] in *.
  split; [| split; [| split; [exact Hs |]]].
  - exists c, e, r, vo, vs. repeat split; assumption.
  - destruct (Float64.ltb e c), (Float64.ltb f50 r && Float64.ltb r f70),
      (Float64.ltb vs vo); reflexivity.
  - intros i' v' H'. apply rule_of_three_inv in H'.
    destruct H' as (c' & e' & r' & vo' & vs' & c15' & w'
                    & Hc' & He' & Hr' & Hvo' & Hvs' & _ & _ & ->).
    cbn [score].
    rewrite Hc in Hc'. rewrite He in He'. rewrite Hr in Hr'.
    rewrite Hvo in Hvo'. rewrite Hvs in Hvs'.
    injection Hc' as <-. injection He' as <-. injection Hr' as <-.
    injection Hvo' as <-. injection Hvs' as <-. reflexivity.
Qed.

Lemma C3_score_counts_witness :
  (exists v, rule_of_three Demo.bull_day Demo.bull_15 = Ok v) /\
  score Demo.bull_verdict
  = Z.of_nat (count_occ bool_dec
                [trend_bullish Demo.bull_verdict;
                 mom_bullish Demo.bull_verdict;
                 vol_bullish Demo.bull_verdict] true) /\
  0 <= score Demo.bull_verdict <= 3.
Proof.
  destruct (C3_score_counts Demo.bull_day Demo.bull_15) as [T C].
  split.
  - apply T. vm_compute. reflexivity.
  - assert (H : rule_of_three Demo.bull_day Demo.bull_15
                = Ok Demo.bull_verdict) by (vm_compute; reflexivity).
    destruct (C Demo.bull_verdict H) as (_ & Hcount & Hrange & _).
    split; assumption.
Defined.

(** A field that is NaN does not stop the scorer: with EMA_50 = NaN on the
    last daily row it returns a verdict whose trend category is bearish. *)
Lemma C5_nan_is_scored :
  assoc "EMA_50" Demo.nan_day = Some (PyFloat S754_nan) /\
  rule_of_three Demo.nan_day Demo.bull_15 =
  Ok {| trend_bullish := false; mom_bullish := true; vol_bullish := true;
        intra_bullish := true; score := 2; classification := WATCHLIST |}.
Proof. split; vm_compute; reflexivity. Qed.

(** C5, amended. When one of the fields the scorer reads is absent from its
    row or is [None], the scorer raises (a [KeyError] or a [TypeError]) and
    no verdict is produced.  When the seven fields are floats the scorer
    always returns a verdict, and a comparison one of whose sides is NaN
    counts as not bullish. *)
Theorem C5_unavailable_field (last_day last_15 : Row) :
  (lacks_field last_day last_15 = true ->
   exists e, rule_of_three last_day last_15 = Raise e /\
             (e = TypeError \/ exists key, e = KeyError key)) /\
  (lacks_field last_day last_15 = false ->
   exists v close ema_50 rsi volume vol_sma_5 close_15 vwap,
     rule_of_three last_day last_15 = Ok v /\
     assoc "Close" last_day = Some (PyFloat close) /\
     assoc "EMA_50" last_day = Some (PyFloat ema_50) /\
     assoc "RSI" last_day = Some (PyFloat rsi) /\
     assoc "Volume" last_day = Some (PyFloat volume) /\
     assoc "Vol_SMA_5" last_day = Some (PyFloat vol_sma_5) /\
     assoc "Close" last_15 = Some (PyFloat close_15) /\
     assoc "VWAP" last_15 = Some (PyFloat vwap) /\
     (Float64.is_nan close || Float64.is_nan ema_50 = true ->
      trend_bullish v = false) /\
     (Float64.is_nan rsi = true -> mom_bullish v = false) /\
     (Float64.is_nan volume || Float64.is_nan vol_sma_5 = true ->
      vol_bullish v = false) /\
     (Float64.is_nan close_15 || Float64.is_nan vwap = true ->
      intra_bullish v = false)).
Proof.
  split.
  - intros Hu. destruct (rule_of_three last_day last_15) as [v | e] eqn:H.
    + exfalso. apply rule_of_three_inv in H.
      destruct H as (c & e & r & vo & vs & c15 & w
                     & Hc & He & Hr & Hvo & Hvs & Hc15 & Hw & _).
      unfold lacks_field in Hu.
      cbn [existsb daily_fields intraday_fields] in Hu.
      rewrite (unavailable_float _ _ _ Hc), (unavailable_float _ _ _ He),
        (unavailable_float _ _ _ Hr), (unavailable_float _ _ _ Hvo),
        (unavailable_float _ _ _ Hvs), (unavailable_float _ _ _ Hc15),
        (unavailable_float _ _ _ Hw) in Hu.
      discriminate Hu.
    + exists e. split; [reflexivity |].
      exact (rule_of_three_raises _ _ _ H).
  - intros Hu. apply complete_rows in Hu.
    destruct Hu as (c & e & r & vo & vs & c15 & w
                    & Hc & He & Hr & Hvo & Hvs & Hc15 & Hw).
    eexists. exists c, e, r, vo, vs, c15, w.
    split;
      [exact (rule_of_three_ok _ _ _ _ _ _ _ _ _ Hc He Hr Hvo Hvs Hc15 Hw) |].
    repeat (split; [assumption |]).
    cbv zeta. cbn [trend_bullish mom_bullish vol_bullish intra_bullish].
    repeat split.
    + destruct c, e; cbn [Float64.is_nan orb]; intros N;
        try discriminate N; reflexivity.
    + destruct r; cbn [Float64.is_nan]; intros N;
        try discriminate N; reflexivity.
    + destruct vo, vs; cbn [Float64.is_nan orb]; intros N;
        try discriminate N; reflexivity.
    + destruct c15, w; cbn [Float64.is_nan orb]; intros N;
        try discriminate N; reflexivity.
Qed.

Lemma C5_unavailable_field_witness :
  (exists e, rule_of_three Demo.none_day Demo.bull_15 = Raise e /\
             (e = TypeError \/ exists key, e = KeyError key)) /\
  (exists e, rule_of_three Demo.bare_day Demo.bull_15 = Raise e /\
             (e = TypeError \/ exists key, e = KeyError key)) /\
  (exists v, rule_of_three Demo.nan_day Demo.bull_15 = Ok v /\
             trend_bullish v = false).
Proof.
  split; [| split].
  - apply (proj1 (C5_unavailable_field Demo.none_day Demo.bull_15)).
    vm_compute. reflexivity.
  - apply (proj1 (C5_unavailable_field Demo.bare_day Demo.bull_15)).
    vm_compute. reflexivity.
  - destruct (proj2 (C5_unavailable_field Demo.nan_day Demo.bull_15) eq_refl)
      as (v & c & e & r & vo & vs & c15 & w
          & Hv & _ & He & _ & _ & _ & _ & _ & Ht & _).
    exists v. split; [exact Hv |].
    apply Ht. vm_compute in He. injection He as <-.
    destruct c; reflexivity.
Defined.

(** Which exception it is: [None] under EMA_50 is a [TypeError], no EMA_50
    at all a [KeyError]. *)
Example none_and_absent :
  rule_of_three Demo.none_day Demo.bull_15 = Raise TypeError /\
  rule_of_three Demo.bare_day Demo.bull_15 = Raise (KeyError "EMA_50").
Proof. split; vm_compute; reflexivity. Qed.

(* ================================================================== *)
(** ** The engine and the frame it is handed *)

Lemma filter_set_column (keys : list string) (key : string) (v : list cell)
    (cols : list (string * list cell)) :
  mentions keys key = true ->
  filter (outside keys) (set_column key v cols) = filter (outside keys) cols.
Proof.
  intros Hk. induction cols as [| [k old] cols IH]; cbn [set_column].
  - cbn [filter]. unfold outside. cbn [fst]. rewrite Hk. reflexivity.
  - destruct (String.eqb_spec key k) as [-> | Hne]; cbn [filter].
    + assert (Hv : outside keys (k, v) = false)
        by (unfold outside; cbn [fst]; now rewrite Hk).
      assert (Ho : outside keys (k, old) = false)
        by (unfold outside; cbn [fst]; now rewrite Hk).
      rewrite Hv, Ho. reflexivity.
    + rewrite IH. reflexivity.
Qed.

Lemma names_set_column (key : string) (v : list cell)
    (cols : list (string * list cell)) :
  exists added,
    map fst (set_column key v cols) = (map fst cols ++ added)%list.
Proof.
  induction cols as [| [k old] cols IH]; cbn [set_column].
  - exists [key]. reflexivity.
  - destruct (String.eqb key k).
    + exists []. cbn [map fst]. now rewrite app_nil_r.
    + destruct IH as [added IH]. exists added.
      cbn [map fst app]. now rewrite IH.
Qed.

Lemma same_outside_refl (keys : list string) (df : DataFrame) :
  same_outside keys df df.
Proof.
  repeat split. exists []. now rewrite app_nil_r.
Qed.

Lemma same_outside_trans (keys : list string) (df1 df2 df3 : DataFrame) :
  same_outside keys df1 df2 -> same_outside keys df2 df3 ->
  same_outside keys df1 df3.
Proof.
  intros (I1 & F1 & a1 & N1) (I2 & F2 & a2 & N2). repeat split.
  - congruence.
  - congruence.
  - exists (a1 ++ a2)%list. rewrite N2, N1. now rewrite app_assoc.
Qed.

Section WritesOnly.

Variable keys : list string.

Lemma writes_only_ret {A : Type} (a : A) : writes_only keys (ret a).
Proof. intros df. apply same_outside_refl. Qed.

Lemma writes_only_lift {A : Type} (r : result A) :
  writes_only keys (lift r).
Proof. intros df. apply same_outside_refl. Qed.

Lemma writes_only_getitem (key : string) : writes_only keys (getitem key).
Proof. intros df. apply same_outside_refl. Qed.

Lemma writes_only_setitem (key : string) (value : option Series) :
  mentions keys key = true -> writes_only keys (setitem key value).
Proof.
  intros Hk df. unfold setitem, same_outside, column_names.
  cbn [fst df_index df_columns]. repeat split.
  - apply filter_set_column. exact Hk.
  - apply names_set_column.
Qed.

Lemma writes_only_bind {A B : Type} (m : Upd A) (k : A -> Upd B) :
  writes_only keys m -> (forall a, writes_only keys (k a)) ->
  writes_only keys (ubind m k).
Proof.
  intros Hm Hk df. unfold ubind.
  specialize (Hm df). destruct (m df) as [df1 [a | e]]; cbn [fst] in *.
  - apply same_outside_trans with df1; [exact Hm | apply Hk].
  - exact Hm.
Qed.

End WritesOnly.

(** Discharging [writes_only] goals along the shape of the code. *)
Ltac frame_step :=
  first
    [ apply writes_only_bind; [| intros ?]
    | apply writes_only_getitem
    | apply writes_only_lift
    | apply writes_only_ret
    | apply writes_only_setitem; reflexivity
    | match goal with
      | |- writes_only _ (match ?x with _ => _ end) => destruct x
      | |- writes_only _ (if ?b then _ else _) => destruct b
      end ].

Lemma add_indicators_writes_only (ta : TaLib) (is_intraday : bool) :
  writes_only (engine_keys is_intraday) (add_indicators ta is_intraday).
Proof.
  unfold add_indicators, add_supertrend, add_macd, add_bbands, add_vwap.
  destruct is_intraday; repeat frame_step.
Qed.

Lemma assoc_filter_outside (keys : list string) (key : string)
    (cols : list (string * list cell)) :
  mentions keys key = false ->
  assoc key (filter (outside keys) cols) = assoc key cols.
Proof.
  intros Hk. induction cols as [| [k v] cols IH]; [reflexivity |].
  cbn [filter assoc]. unfold outside at 1. cbn [fst].
  destruct (String.eqb_spec key k) as [<- | Hne].
  - rewrite Hk. cbn [negb assoc]. now rewrite String.eqb_refl.
  - destruct (negb (mentions keys k)); [| exact IH].
    cbn [assoc]. destruct (String.eqb_spec key k); [contradiction | exact IH].
Qed.

Lemma same_outside_assoc (keys : list string) (df df' : DataFrame)
    (key : string) :
  same_outside keys df df' -> mentions keys key = false ->
  assoc key (df_columns df') = assoc key (df_columns df).
Proof.
  intros (_ & F & _) Hk.
  rewrite <- (assoc_filter_outside keys key (df_columns df') Hk).
  rewrite <- (assoc_filter_outside keys key (df_columns df) Hk).
  now rewrite F.
Qed.

(** C10. Whatever the input DataFrame and the library, and whether the run
    returns or raises, [add_indicators] leaves the row index as it was and
    leaves every column that is not one of the indicator keys, the Open,
    High, Low, Close and Volume columns among them, with the same cells and
    in the same order; the column names that were there keep their places
    and the new ones come after them. *)
Theorem C10_ohlcv_untouched (ta : TaLib) (is_intraday : bool)
    (df : DataFrame) :
  let df' := fst (add_indicators ta is_intraday df) in
  df_index df' = df_index df /\
  (forall key, In key ohlcv ->
     assoc key (df_columns df') = assoc key (df_columns df)) /\
  filter (outside (engine_keys is_intraday)) (df_columns df')
    = filter (outside (engine_keys is_intraday)) (df_columns df) /\
  exists added, column_names df' = (column_names df ++ added)%list.
Proof.
  cbv zeta.
  pose proof (add_indicators_writes_only ta is_intraday df) as W.
  pose proof W as (I & F & N).
  split; [exact I | split; [| split; [exact F | exact N]]].
  intros key Hin. apply (same_outside_assoc _ _ _ _ W).
  destruct is_intraday; cbn [In ohlcv] in Hin;
    repeat (destruct Hin as [<- | Hin]; [reflexivity |]); contradiction.
Qed.

(** C4. When [add_indicators] runs with [is_intraday = false] on a frame
    without a VWAP column, so on every frame of candles, the frame it
    leaves has no VWAP column; and that run does not depend on the VWAP
    function of the library at all. *)
Theorem C4_no_vwap_unless_intraday (ta : TaLib) (df : DataFrame) :
  (has_column "VWAP" df = false ->
   has_column "VWAP" (fst (add_indicators ta false df)) = false) /\
  (forall idx open high low close volume,
     has_column "VWAP"
       (fst (add_indicators ta false
               (candles idx open high low close volume))) = false) /\
  (forall f, add_indicators (with_vwap f ta) false df
             = add_indicators ta false df).
Proof.
  assert (G : forall d, has_column "VWAP" d = false ->
              has_column "VWAP" (fst (add_indicators ta false d)) = false).
  { intros d H. unfold has_column in *.
    rewrite (same_outside_assoc (engine_keys false) d _ "VWAP"
               (add_indicators_writes_only ta false d) eq_refl).
    exact H. }
  split; [apply G | split].
  - intros. apply G. reflexivity.
  - intros f. reflexivity.
Qed.

Lemma C4_no_vwap_unless_intraday_witness :
  has_column "VWAP"
    (fst (add_indicators Demo.ta_echo false Demo.two_candles)) = false /\
  has_column "VWAP"
    (fst (add_indicators Demo.ta_echo true Demo.two_candles)) = true.
Proof.
  split.
  - apply (proj1 (C4_no_vwap_unless_intraday Demo.ta_echo Demo.two_candles)).
    reflexivity.
  - vm_compute. reflexivity.
Defined.

(** The claim of C7 fails on the code.  A moving average that yields no
    result is stored under its key, one [None] per row, and the key is
    there; a Supertrend result without a column named [SUPERT_...] makes
    the engine raise. *)
Lemma C7_key_kept_or_raise :
  (ta_sma Demo.ta_none
     {| s_index := df_index Demo.two_candles;
        s_values := [Demo.fl 101; Demo.fl 102] |} 50 = None /\
   add_indicators Demo.ta_none false Demo.two_candles
   = ({| df_index := df_index Demo.two_candles;
         df_columns :=
           (df_columns Demo.two_candles
              ++ [("SMA_50", [PyNone; PyNone]); ("EMA_50", [PyNone; PyNone]);
                  ("RSI", [PyNone; PyNone]);
                  ("Vol_SMA_5", [PyNone; PyNone])])%list |},
      Ok tt)) /\
  (exists st_data,
     ta_supertrend Demo.ta_no_trend_line
       {| s_index := df_index Demo.two_candles;
          s_values := [Demo.fl 102; Demo.fl 103] |}
       {| s_index := df_index Demo.two_candles;
          s_values := [Demo.fl 99; Demo.fl 100] |}
       {| s_index := df_index Demo.two_candles;
          s_values := [Demo.fl 101; Demo.fl 102] |} 10 3 = Some st_data /\
     filter (String.prefix "SUPERT_") (column_names st_data) = [] /\
     snd (add_indicators Demo.ta_no_trend_line false Demo.two_candles)
     = Raise IndexError).
Proof.
  split; [split |].
  - reflexivity.
  - vm_compute. reflexivity.
  - eexists. split; [reflexivity | split; vm_compute; reflexivity].
Qed.

(** Running the engine on a frame of candles: the branches of the code are
    followed one library result at a time. *)
Ltac engine_branch :=
  match goal with
  | |- context [match ?x with _ => _ end] =>
      lazymatch x with
      | ta_supertrend _ _ _ _ _ _ => destruct x
      | ta_macd _ _ => destruct x
      | ta_bbands _ _ _ => destruct x
      | first_with_prefix _ _ => destruct x
      | assoc _ (df_columns _) => destruct x
      end
  end.

Ltac engine_simpl :=
  cbn [df_columns df_index assoc String.eqb Ascii.eqb Bool.eqb fst snd
       set_column].

Ltac run_engine :=
  unfold add_indicators, add_supertrend, add_macd, add_bbands, add_vwap,
    ubind, getitem, setitem, frame_get, lift, ret, candles;
  engine_simpl.

(** The same, the results named in the hypotheses taken as they are. *)
Ltac engine_cases :=
  repeat (first [ match goal with
                  | H : _ = None |- _ => rewrite H
                  end
                | engine_branch ];
          engine_simpl);
  reflexivity.

Section GuardedIndicators.

Variable ta : TaLib.
Variable is_intraday : bool.
Variables (idx : list Timestamp) (open high low close volume : list cell).

(** The frame of candles, and its columns as the library receives
    them. *)
Variable df : DataFrame.
Variables High Low Close : Series.
Hypothesis Hdf : df = candles idx open high low close volume.
Hypothesis HHigh : High = {| s_index := idx; s_values := high |}.
Hypothesis HLow : Low = {| s_index := idx; s_values := low |}.
Hypothesis HClose : Close = {| s_index := idx; s_values := close |}.

Lemma supertrend_omitted :
  ta_supertrend ta High Low Close 10 3 = None ->
  has_column "Supertrend" (fst (add_indicators ta is_intraday df)) = false.
Proof.
  intros Hst. subst df High Low Close. run_engine.
  destruct is_intraday; engine_cases.
Qed.

Lemma macd_omitted :
  ta_macd ta Close = None ->
  has_column "MACD" (fst (add_indicators ta is_intraday df)) = false /\
  has_column "MACD_Signal" (fst (add_indicators ta is_intraday df)) = false.
Proof.
  intros Hm. subst df High Low Close. run_engine.
  destruct is_intraday; split; engine_cases.
Qed.

Lemma bbands_omitted :
  ta_bbands ta Close 20 = None ->
  has_column "BB_Upper" (fst (add_indicators ta is_intraday df)) = false /\
  has_column "BB_Lower" (fst (add_indicators ta is_intraday df)) = false.
Proof.
  intros Hb. subst df High Low Close. run_engine.
  destruct is_intraday; split; engine_cases.
Qed.

Lemma guarded_none_returns :
  ta_supertrend ta High Low Close 10 3 = None ->
  ta_macd ta Close = None ->
  ta_bbands ta Close 20 = None ->
  snd (add_indicators ta is_intraday df) = Ok tt.
Proof.
  intros Hst Hm Hb. subst df High Low Close. run_engine.
  destruct is_intraday; engine_cases.
Qed.

End GuardedIndicators.

(** C7, amended. On every frame of candles, for Supertrend, for MACD with
    MACD_Signal and for BB_Upper with BB_Lower: when the library function
    yields no result ([None]), the engine leaves the indicator's keys out of
    the frame; and when all three yield no result the engine returns
    without raising. *)
Theorem C7_guarded_indicators_omitted (ta : TaLib) (is_intraday : bool)
    (idx : list Timestamp) (open high low close volume : list cell) :
  let df := candles idx open high low close volume in
  let High := {| s_index := idx; s_values := high |} in
  let Low := {| s_index := idx; s_values := low |} in
  let Close := {| s_index := idx; s_values := close |} in
  let df' := fst (add_indicators ta is_intraday df) in
  (ta_supertrend ta High Low Close 10 3 = None ->
   has_column "Supertrend" df' = false) /\
  (ta_macd ta Close = None ->
   has_column "MACD" df' = false /\ has_column "MACD_Signal" df' = false) /\
  (ta_bbands ta Close 20 = None ->
   has_column "BB_Upper" df' = false /\ has_column "BB_Lower" df' = false) /\
  (ta_supertrend ta High Low Close 10 3 = None ->
   ta_macd ta Close = None ->
   ta_bbands ta Close 20 = None ->
   snd (add_indicators ta is_intraday df) = Ok tt).
Proof.
  cbv zeta. split; [| split; [| split]].
  - now apply (supertrend_omitted ta is_intraday idx open high low close
                                  volume).
  - now apply (macd_omitted ta is_intraday idx open high low close volume).
  - now apply (bbands_omitted ta is_intraday idx open high low close volume).
  - now apply (guarded_none_returns ta is_intraday idx open high low close
                                    volume).
Qed.

Lemma C7_guarded_indicators_omitted_witness :
  let df' := fst (add_indicators Demo.ta_none true Demo.two_candles) in
  has_column "Supertrend" df' = false /\
  (has_column "MACD" df' = false /\ has_column "MACD_Signal" df' = false) /\
  (has_column "BB_Upper" df' = false /\ has_column "BB_Lower" df' = false) /\
  snd (add_indicators Demo.ta_none true Demo.two_candles) = Ok tt.
Proof.
  pose proof (C7_guarded_indicators_omitted Demo.ta_none true
                [202401010915; 202401010930]
                [Demo.fl 100; Demo.fl 101] [Demo.fl 102; Demo.fl 103]
                [Demo.fl 99; Demo.fl 100] [Demo.fl 101; Demo.fl 102]
                [Demo.fl 5000; Demo.fl 7000]) as (S & M & B & R).
  cbv zeta. split; [| split; [| split]].
  - apply S. reflexivity.
  - apply M. reflexivity.
  - apply B. reflexivity.
  - apply R; reflexivity.
Defined.

(* ================================================================== *)
(** ** An indicator without result, seen from the handler *)

Lemma last_repeat_none (n : nat) (d : cell) :
  last (repeat PyNone (S n)) d = PyNone.
Proof.
  induction n as [| n IH]; [reflexivity |].
  change (repeat PyNone (S (S n))) with (PyNone :: repeat PyNone (S n)).
  cbn [last]. cbn [repeat] in *. exact IH.
Qed.

Lemma py_gt_none (a : cell) : py_gt a PyNone = Raise TypeError.
Proof. destruct a; reflexivity. Qed.

(** When the library has no EMA(50) for the daily candles, as on a series
    that is too short, the analysis ends in an exception, whatever else the
    library returns; at most the title has been shown by then, and no
    banner. *)
Lemma ema_none_stops_analysis (ta : TaLib) (idx : list Timestamp)
    (open high low close volume : list cell) (df_intra : DataFrame) :
  ta_ema ta {| s_index := idx; s_values := close |} 50 = None ->
  exists shown e,
    analysis ta (candles idx open high low close volume) df_intra
    = (shown, Raise e) /\
    (shown = [] \/ shown = [st_title]).
Proof.
  intros Hema. unfold analysis.
  set (intraday := add_indicators ta true df_intra).
  run_engine. rewrite Hema.
  repeat (engine_branch; engine_simpl);
    try (do 2 eexists; split; [reflexivity | left; reflexivity]).
  all: destruct intraday as [di [[] | e]];
    try (do 2 eexists; split; [reflexivity | left; reflexivity]).
  all: unfold iloc_last; cbn [df_index df_columns];
    destruct idx as [| t idx'];
    try (do 2 eexists; split; [reflexivity | left; reflexivity]).
  all: destruct (df_index di);
    try (do 2 eexists; split; [reflexivity | left; reflexivity]).
  all: unfold rule_of_three, row_get, bind, column_of;
    cbn [map fst snd assoc String.eqb Ascii.eqb Bool.eqb List.length];
    rewrite last_repeat_none, py_gt_none;
    do 2 eexists; split; [reflexivity | right; reflexivity].
Qed.

(** The run of the handler on two candles with a library that has no
    result at all. *)
Example no_result_no_banner :
  analyze Demo.ta_none (Some Demo.two_candles) (Some Demo.two_candles)
  = ([st_title], Raise TypeError).
Proof. vm_compute. reflexivity. Qed.

(* ================================================================== *)
(** ** The data engine *)

Lemma traverse_ok {A B : Type} (f : A -> result B) (l : list A)
    (out : list B) :
  traverse f l = Ok out -> map f l = map Ok out.
Proof.
  revert out. induction l as [| a l IH]; cbn [traverse]; intros out H.
  - injection H as <-. reflexivity.
  - unfold bind in H. destruct (f a) as [b | e] eqn:Ha; [| discriminate H].
    destruct (traverse f l) as [bs | e]; [| discriminate H].
    injection H as <-. cbn [map]. rewrite Ha, (IH bs eq_refl). reflexivity.
Qed.

Lemma field_pad (j : nat) (r : list raw) : field j (pad r) = field j r.
Proof.
  unfold field, pad.
  destruct (Nat.lt_ge_cases j (List.length r)) as [Hlt | Hge].
  - apply app_nth1. exact Hlt.
  - rewrite app_nth2 by exact Hge.
    rewrite (nth_overflow r) by exact Hge.
    destruct (Nat.lt_ge_cases (j - List.length r) (6 - List.length r))
      as [Hin | Hout].
    + apply nth_repeat_lt. exact Hin.
    + apply nth_overflow. rewrite repeat_length. exact Hout.
Qed.

Lemma six_columns_cells (x : jvalue) (rows : list (list raw)) :
  six_columns x = Ok rows ->
  map (field 0) rows = timestamp_cells x.
Proof.
  destruct x as [v | raws]; cbn [six_columns timestamp_cells].
  - destruct v; intros H; try discriminate H; injection H as <-; reflexivity.
  - destruct raws as [| r raws]; intros H.
    + injection H as <-. reflexivity.
    + destruct (Nat.eqb (widest (r :: raws)) 6); [| discriminate H].
      injection H as <-.
      change (pad r :: map pad raws) with (map pad (r :: raws)).
      rewrite map_map. apply map_ext. intros row. apply field_pad.
Qed.

Section FetchFacts.

Variable to_datetime : raw -> option Timestamp.
Variable float_of_string : string -> option float.
Variable now : Timestamp.
Variable api : option Session.


(** A frame that was fetched: the session answered with a dictionary that
    has data, and the frame is a frame of candles on the timestamps of the
    rows of that data, one after the other. *)
Lemma fetch_data_some (token interval : string) (days : Z)
    (df : DataFrame) :
  fetch_data to_datetime float_of_string now api token interval days
    = Some df ->
  exists session data x open high low close volume,
    api = Some session /\
    getCandleData session
      {| exchange := "NSE"; symboltoken := token; interval := interval;
         fromdate := now - days * 1440; todate := now |} = Ok data /\
    payload_data data = Ok x /\
    map to_datetime (timestamp_cells x) = map Some (df_index df) /\
    df = candles (df_index df) open high low close volume.
Proof.
  unfold fetch_data, fetch_body, bind.
  destruct api as [session |]; [| discriminate].
  destruct (getCandleData session _) as [data | e] eqn:Hcall;
    [| discriminate].
  destruct (payload_data data) as [x | e] eqn:Hx; [| discriminate].
  destruct (six_columns x) as [rows | e] eqn:Hrows; [| discriminate].
  destruct (traverse _ rows) as [stamps | e] eqn:Hst; [| discriminate].
  destruct (float_column _ 1 rows) as [o | e]; [| discriminate].
  destruct (float_column _ 2 rows) as [h | e]; [| discriminate].
  destruct (float_column _ 3 rows) as [l | e]; [| discriminate].
  destruct (float_column _ 4 rows) as [c | e]; [| discriminate].
  destruct (float_column _ 5 rows) as [v | e]; [| discriminate].
  intros H. injection H as <-.
  exists session, data, x, o, h, l, c, v. cbn [df_index candles].
  repeat split; try assumption; try reflexivity.
  rewrite <- (six_columns_cells x rows Hrows).
  apply traverse_ok in Hst. rewrite map_map.
  clear - Hst. revert stamps Hst.
  induction rows as [| r rows IH]; intros [| t stamps] Hst;
    try discriminate Hst; [reflexivity |].
  cbn [map] in *. injection Hst as Hr Hrest.
  unfold parse_timestamp in Hr.
  destruct (to_datetime (field 0 r)) as [t' |]; [| discriminate Hr].
  injection Hr as ->. f_equal. apply IH. exact Hrest.
Qed.

(** An exception in the body never leaves [fetch_data]. *)
Lemma fetch_data_none (token interval : string) (days : Z) (e : exn) :
  fetch_body to_datetime float_of_string now api token interval days
    = Raise e ->
  fetch_data to_datetime float_of_string now api token interval days = None.
Proof. unfold fetch_data. now intros ->. Qed.

End FetchFacts.

(** The claim of C6 fails on the code: two rows that arrive later one first
    are fetched in that order, and the index is not ascending. *)
Lemma C6_later_first_stays_first :
  exists df,
    DemoFetch.fetch (Some (Demo.serving DemoFetch.later_first)) = Some df /\
    df_index df = [202401020000; 202401010000] /\
    ascending (df_index df) = false.
Proof. eexists. repeat split; vm_compute; reflexivity. Qed.

(** C6, amended. The rows of a fetched frame are in the order in which the
    gateway returned them: the index is the sequence of the parsed
    timestamps of the rows of the payload, one after the other.  So the
    frame is ascending in time exactly when the rows arrived so. *)
Theorem C6_arrival_order_kept
    (to_datetime : raw -> option Timestamp)
    (float_of_string : string -> option float)
    (now : Timestamp) (api : option Session)
    (token interval : string) (days : Z) (df : DataFrame) :
  fetch_data to_datetime float_of_string now api token interval days
    = Some df ->
  exists session data x,
    api = Some session /\
    getCandleData session
      {| exchange := "NSE"; symboltoken := token; interval := interval;
         fromdate := now - days * 1440; todate := now |} = Ok data /\
    payload_data data = Ok x /\
    map to_datetime (timestamp_cells x) = map Some (df_index df) /\
    (forall stamps,
        map to_datetime (timestamp_cells x) = map Some stamps ->
        ascending (df_index df) = ascending stamps).
Proof.
  intros H. apply fetch_data_some in H.
  destruct H as (session & data & x & o & h & l & c & v
                 & Hapi & Hcall & Hx & Hidx & _).
  exists session, data, x. repeat split; try assumption.
  intros stamps Hs. rewrite Hidx in Hs. f_equal.
  clear - Hs. revert stamps Hs.
  induction (df_index df) as [| t idx IH]; intros [| u stamps] Hs;
    try discriminate Hs; [reflexivity |].
  cbn [map] in Hs. injection Hs as -> Hrest. f_equal. apply IH. exact Hrest.
Qed.

Lemma C6_arrival_order_kept_witness :
  exists session data x df,
    DemoFetch.fetch (Some session) = Some df /\
    getCandleData session
      {| exchange := "NSE"; symboltoken := "3045"; interval := "ONE_DAY";
         fromdate := 0 - 365 * 1440; todate := 0 |} = Ok data /\
    payload_data data = Ok x /\
    map Demo.to_datetime (timestamp_cells x) = map Some (df_index df).
Proof.
  destruct (DemoFetch.fetch (Some (Demo.serving DemoFetch.later_first)))
    as [df |] eqn:F; [| vm_compute in F; discriminate F].
  destruct (C6_arrival_order_kept Demo.to_datetime Demo.float_of_string 0
              (Some (Demo.serving DemoFetch.later_first))
              "3045" "ONE_DAY" 365 df F)
    as (session & data & x & Hapi & Hcall & Hx & Hidx & _).
  injection Hapi as <-.
  exists (Demo.serving DemoFetch.later_first), data, x, df.
  repeat split; assumption.
Defined.

(** C9. An exception raised anywhere in the body of [fetch_data], whatever
    its cause, ends in the single result [None] and never leaves the
    function.  When either fetch gave [None] or a frame without rows, the
    handler shows the one message "Could not fetch data. Market closed or
    invalid symbol." and nothing else, and returns without raising. *)
Theorem C9_fetch_failure_contained (ta : TaLib)
    (to_datetime : raw -> option Timestamp)
    (float_of_string : string -> option float)
    (now : Timestamp) (api : option Session) (token : string) :
  (forall interval days e,
     fetch_body to_datetime float_of_string now api token interval days
       = Raise e ->
     fetch_data to_datetime float_of_string now api token interval days
       = None) /\
  (forall df_daily df_intra,
     usable df_daily && usable df_intra = false ->
     analyze ta df_daily df_intra = ([st_error fetch_failed_msg], Ok None)) /\
  (usable (fetch_data to_datetime float_of_string now api token
                      "ONE_DAY" 365)
   && usable (fetch_data to_datetime float_of_string now api token
                         "FIFTEEN_MINUTE" 10) = false ->
   on_analyze ta to_datetime float_of_string now api token
   = ([st_error fetch_failed_msg], Ok None)).
Proof.
  assert (A : forall d i, usable d && usable i = false ->
              analyze ta d i = ([st_error fetch_failed_msg], Ok None)).
  { intros [d |] [i |]; unfold usable, analyze; intros H;
      try reflexivity.
    now rewrite H. }
  split; [| split].
  - intros interval days e. apply fetch_data_none.
  - exact A.
  - intros H. unfold on_analyze. apply A. exact H.
Qed.

Lemma C9_fetch_failure_contained_witness :
  DemoFetch.fetch (Some DemoFetch.offline) = None /\
  on_analyze Demo.ta_echo Demo.to_datetime Demo.float_of_string 0
             (Some DemoFetch.offline) "3045"
  = ([st_error fetch_failed_msg], Ok None) /\
  on_analyze Demo.ta_echo Demo.to_datetime Demo.float_of_string 0
             None "3045"
  = ([st_error fetch_failed_msg], Ok None) /\
  on_analyze Demo.ta_echo Demo.to_datetime Demo.float_of_string 0
             (Some DemoFetch.no_data) "3045"
  = ([st_error fetch_failed_msg], Ok None).
Proof.
  pose proof (C9_fetch_failure_contained Demo.ta_echo Demo.to_datetime
                Demo.float_of_string 0) as C.
  split; [| split; [| split]].
  - apply (proj1 (C (Some DemoFetch.offline) "3045") "ONE_DAY" 365
             (GatewayError "timeout")).
    reflexivity.
  - apply (proj2 (proj2 (C (Some DemoFetch.offline) "3045"))).
    vm_compute. reflexivity.
  - apply (proj2 (proj2 (C None "3045"))). vm_compute. reflexivity.
  - apply (proj2 (proj2 (C (Some DemoFetch.no_data) "3045"))).
    vm_compute. reflexivity.
Defined.

(* ================================================================== *)
(** ** The warm-up of the exponential moving average *)

Module SpecIndicatorsFacts.

Import SpecIndicators.
Local Open Scope nat_scope.

Lemma ema_run_length (alpha prev : Q) (closes : list Q) :
  List.length (ema_run alpha prev closes) = List.length closes.
Proof.
  revert prev. induction closes as [| x closes IH]; intros prev;
    cbn [ema_run List.length]; [reflexivity | now rewrite IH].
Qed.

Lemma ema_run_defined (alpha prev : Q) (closes : list Q) :
  Forall (fun e : entry => exists q, e = Some q)
         (ema_run alpha prev closes).
Proof.
  revert prev. induction closes as [| x closes IH]; intros prev;
    cbn [ema_run]; constructor; [eexists; reflexivity | apply IH].
Qed.

(** EMA(n) on at least n rows: one entry per row, the first n-1 of them
    not available and all the others numbers. *)
Lemma ema_warmup (warmup : nat) (closes : list Q) :
  S warmup <= List.length closes ->
  exists series,
    ema (S warmup) closes = Some series /\
    List.length series = List.length closes /\
    forall i, i < List.length closes ->
      (i < warmup -> nth_error series i = Some None) /\
      (warmup <= i -> exists q, nth_error series i = Some (Some q)).
Proof.
  intros Hlen. unfold ema.
  destruct (Nat.ltb_spec (List.length closes) (S warmup)) as [Hlt | _];
    [lia |].
  eexists. split; [reflexivity |].
  set (seed := mean (firstn (S warmup) closes)).
  set (alpha := (2 / inject_Z (Z.of_nat (S warmup) + 1))%Q).
  set (tail := Some seed :: ema_run alpha seed (skipn (S warmup) closes)).
  assert (Htail : List.length tail = List.length closes - warmup).
  { subst tail. cbn [List.length]. rewrite ema_run_length, length_skipn.
    lia. }
  assert (Hdef : Forall (fun e : entry => exists q, e = Some q) tail).
  { subst tail. constructor; [eexists; reflexivity |].
    apply ema_run_defined. }
  split.
  - rewrite length_app, repeat_length, Htail. lia.
  - intros i Hi. split.
    + intros Hw. rewrite nth_error_app1 by (rewrite repeat_length; lia).
      apply nth_error_repeat. exact Hw.
    + intros Hw. rewrite nth_error_app2 by (rewrite repeat_length; lia).
      rewrite repeat_length.
      destruct (nth_error tail (i - warmup)) as [e |] eqn:He.
      * apply nth_error_In in He.
        rewrite Forall_forall in Hdef.
        destruct (Hdef e He) as [q ->]. exists q. reflexivity.
      * apply nth_error_None in He. lia.
Qed.

End SpecIndicatorsFacts.

(** C8. On every series of at least 50 closing prices EMA(50) yields a
    series with one entry per row; the entry is a number at every index from
    49 onward and not available at every index before 49. *)
Theorem C8_ema_50_warmup (closes : list Q) :
  (50 <= List.length closes)%nat ->
  exists series,
    SpecIndicators.ema 50 closes = Some series /\
    List.length series = List.length closes /\
    forall i, (i < List.length closes)%nat ->
      ((49 <= i)%nat -> exists q, nth_error series i = Some (Some q)) /\
      ((i < 49)%nat -> nth_error series i = Some None).
Proof.
  intros Hlen.
  destruct (SpecIndicatorsFacts.ema_warmup 49 closes Hlen)
    as (series & He & Hl & Hi).
  exists series. split; [exact He | split; [exact Hl |]].
  intros i Hlt. destruct (Hi i Hlt) as [Hbefore Hafter]. split; assumption.
Qed.

Lemma C8_ema_50_warmup_witness :
  exists series,
    SpecIndicators.ema 50 (repeat 100%Q 52) = Some series /\
    List.length series = 52%nat /\
    (exists q, nth_error series 49 = Some (Some q)) /\
    nth_error series 48 = Some None.
Proof.
  destruct (C8_ema_50_warmup (repeat 100%Q 52)) as (series & He & Hl & Hi).
  - rewrite repeat_length. lia.
  - rewrite repeat_length in Hl, Hi. exists series.
    split; [exact He | split; [exact Hl | split]].
    + apply (Hi 49%nat); lia.
    + apply (Hi 48%nat); lia.
Defined.

(** EMA(3) at work: the seed is the mean of the first three closes, and
    on fewer than three closes there is no result. *)
Example ema_3_runs :
  SpecIndicators.ema 3 [1; 2; 3; 5]%Q
  = Some [None; None; Some (6 / 3)%Q;
          Some (2 / 4 * 5 + (1 - 2 / 4) * (6 / 3))%Q] /\
  SpecIndicators.ema 3 [1; 2]%Q = None.
Proof. split; reflexivity. Qed.

(* ================================================================== *)
(** * Further properties of the code *)

(** ** What a fetched frame holds *)

Lemma traverse_length {A B : Type} (f : A -> result B) (l : list A)
    (out : list B) :
  traverse f l = Ok out -> List.length out = List.length l.
Proof.
  intros H. apply traverse_ok in H.
  apply (f_equal (@List.length _)) in H.
  rewrite !length_map in H. symmetry. exact H.
Qed.

Lemma traverse_nth {A B : Type} (f : A -> result B) (l : list A)
    (out : list B) (i : nat) (a : A) :
  traverse f l = Ok out -> nth_error l i = Some a ->
  exists b, nth_error out i = Some b /\ f a = Ok b.
Proof.
  intros H. apply traverse_ok in H. revert out i H.
  induction l as [| a' l IH]; intros [| b' out] [| i] H Hn;
    try discriminate H; try discriminate Hn; cbn [map] in H;
    injection H as Hb Hrest; cbn [nth_error] in *.
  - injection Hn as <-. exists b'. split; [reflexivity | exact Hb].
  - apply (IH out i Hrest Hn).
Qed.

Lemma traverse_all {A B : Type} (f : A -> result B) (l : list A)
    (out : list B) (a : A) :
  traverse f l = Ok out -> In a l -> exists b, f a = Ok b /\ In b out.
Proof.
  intros H Hin. apply In_nth_error in Hin. destruct Hin as [i Hi].
  destruct (traverse_nth f l out i a H Hi) as (b & Hb & Hf).
  exists b. split; [exact Hf | exact (nth_error_In _ _ Hb)].
Qed.

Lemma traverse_out {A B : Type} (f : A -> result B) (l : list A)
    (out : list B) (b : B) :
  traverse f l = Ok out -> In b out -> exists a, In a l /\ f a = Ok b.
Proof.
  intros H. apply traverse_ok in H. revert out H.
  induction l as [| a l IH]; intros [| b' out] H Hin;
    try discriminate H; cbn [map] in H; [contradiction |].
  injection H as Hb Hrest. destruct Hin as [<- | Hin].
  - exists a. split; [left; reflexivity | exact Hb].
  - destruct (IH out Hrest Hin) as (a' & Ha & Hf).
    exists a'. split; [right; exact Ha | exact Hf].
Qed.

Section FetchInversion.

Variable to_datetime : raw -> option Timestamp.
Variable float_of_string : string -> option float.
Variable now : Timestamp.
Variable api : option Session.

(** A fetch that gave a frame, step by step. *)
Lemma fetch_data_inv (token interval : string) (days : Z) (df : DataFrame) :
  fetch_data to_datetime float_of_string now api token interval days
    = Some df ->
  exists session data x rows stamps open high low close volume,
    api = Some session /\
    getCandleData session
      {| exchange := "NSE"; symboltoken := token; interval := interval;
         fromdate := now - days * 1440; todate := now |} = Ok data /\
    payload_data data = Ok x /\
    six_columns x = Ok rows /\
    traverse (fun row => parse_timestamp to_datetime (field 0 row)) rows
      = Ok stamps /\
    float_column float_of_string 1 rows = Ok open /\
    float_column float_of_string 2 rows = Ok high /\
    float_column float_of_string 3 rows = Ok low /\
    float_column float_of_string 4 rows = Ok close /\
    float_column float_of_string 5 rows = Ok volume /\
    df = candles stamps open high low close volume.
Proof.
  unfold fetch_data, fetch_body, bind.
  destruct api as [session |]; [| discriminate].
  destruct (getCandleData session _) as [data | e] eqn:Hcall;
    [| discriminate].
  destruct (payload_data data) as [x | e] eqn:Hx; [| discriminate].
  destruct (six_columns x) as [rows | e] eqn:Hrows; [| discriminate].
  destruct (traverse _ rows) as [stamps | e] eqn:Hst; [| discriminate].
  destruct (float_column _ 1 rows) as [o | e] eqn:H1; [| discriminate].
  destruct (float_column _ 2 rows) as [h | e] eqn:H2; [| discriminate].
  destruct (float_column _ 3 rows) as [l | e] eqn:H3; [| discriminate].
  destruct (float_column _ 4 rows) as [c | e] eqn:H4; [| discriminate].
  destruct (float_column _ 5 rows) as [v | e] eqn:H5; [| discriminate].
  intros H. injection H as <-.
  exists session, data, x, rows, stamps, o, h, l, c, v.
  repeat split; assumption.
Qed.

End FetchInversion.

Lemma astype_float_is_float (float_of_string : string -> option float)
    (v : raw) (c : cell) :
  astype_float float_of_string v = Ok c -> is_float c = true.
Proof.
  destruct v as [| z | x | s]; cbn [astype_float].
  - intros H. injection H as <-. reflexivity.
  - destruct (Float64.of_Z z); intros H; try discriminate H;
      injection H as <-; reflexivity.
  - intros H. injection H as <-. reflexivity.
  - destruct (float_of_string s); intros H; [| discriminate H].
    injection H as <-. reflexivity.
Qed.

Lemma float_column_shape (float_of_string : string -> option float)
    (j : nat) (rows : list (list raw)) (col : list cell) :
  float_column float_of_string j rows = Ok col ->
  List.length col = List.length rows /\ all_floats col = true.
Proof.
  unfold float_column. intros H. split.
  - exact (traverse_length _ _ _ H).
  - unfold all_floats. apply forallb_forall. intros c Hc.
    destruct (traverse_out _ _ _ c H Hc) as (row & _ & Hf).
    exact (astype_float_is_float _ _ _ Hf).
Qed.

(** X1. A frame that [fetch_data] returns has exactly the columns Open,
    High, Low, Close and Volume, in this order; every column has one cell
    per row of the index, and every cell is a float, never [None]. *)
Theorem fetched_frame_shape
    (to_datetime : raw -> option Timestamp)
    (float_of_string : string -> option float)
    (now : Timestamp) (api : option Session)
    (token interval : string) (days : Z) (df : DataFrame) :
  fetch_data to_datetime float_of_string now api token interval days
    = Some df ->
  column_names df = ohlcv /\
  forall key col,
    assoc key (df_columns df) = Some col ->
    List.length col = List.length (df_index df) /\ all_floats col = true.
Proof.
  intros H. apply fetch_data_inv in H.
  destruct H as (session & data & x & rows & stamps & o & h & l & c & v
                 & _ & _ & _ & _ & Hst & Ho & Hh & Hl & Hc & Hv & ->).
  split; [reflexivity |].
  apply traverse_length in Hst.
  apply float_column_shape in Ho, Hh, Hl, Hc, Hv.
  intros key col. cbn [candles df_columns df_index assoc]. rewrite Hst.
  repeat (destruct (String.eqb key _);
          [intros E; injection E as <-; assumption |]).
  discriminate.
Qed.

Lemma fetched_frame_shape_witness :
  exists df,
    DemoFetch.fetch (Some (Demo.serving DemoFetch.later_first)) = Some df /\
    column_names df = ohlcv /\
    forall key col,
      assoc key (df_columns df) = Some col ->
      List.length col = List.length (df_index df) /\ all_floats col = true.
Proof.
  destruct (DemoFetch.fetch (Some (Demo.serving DemoFetch.later_first)))
    as [df |] eqn:F; [| vm_compute in F; discriminate F].
  exists df. split; [reflexivity |].
  exact (fetched_frame_shape _ _ _ _ _ _ _ _ F).
Defined.

Lemma six_columns_rows (raws rows : list (list raw)) :
  six_columns (JRows raws) = Ok rows -> rows = map pad raws.
Proof.
  cbn [six_columns]. destruct raws as [| r raws]; intros H.
  - injection H as <-. reflexivity.
  - destruct (Nat.eqb (widest (r :: raws)) 6); [| discriminate H].
    injection H as <-. reflexivity.
Qed.

(** X2. A fetched frame holds the rows of the payload one for one and in
    place: as many rows as the payload has, at row i the parsed timestamp of
    payload row i, and in each of the five columns at row i the float
    conversion of the matching cell of payload row i (a float as it is, an
    integer rounded to the nearest float, null as NaN). *)
Theorem fetched_cells_in_place
    (to_datetime : raw -> option Timestamp)
    (float_of_string : string -> option float)
    (now : Timestamp) (api : option Session)
    (token interval : string) (days : Z) (df : DataFrame) :
  fetch_data to_datetime float_of_string now api token interval days
    = Some df ->
  exists session data x,
    api = Some session /\
    getCandleData session
      {| exchange := "NSE"; symboltoken := token; interval := interval;
         fromdate := now - days * 1440; todate := now |} = Ok data /\
    payload_data data = Ok x /\
    List.length (df_index df) = List.length (timestamp_cells x) /\
    forall raws i row,
      x = JRows raws -> nth_error raws i = Some row ->
      (exists t, nth_error (df_index df) i = Some t /\
                 to_datetime (field 0 row) = Some t) /\
      (forall j key, In (j, key) price_fields ->
         exists col c,
           assoc key (df_columns df) = Some col /\
           nth_error col i = Some c /\
           astype_float float_of_string (field j row) = Ok c).
Proof.
  intros H. apply fetch_data_inv in H.
  destruct H as (session & data & x & rows & stamps & o & h & l & c & v
                 & Hapi & Hcall & Hx & Hrows & Hst & Ho & Hh & Hl & Hc & Hv
                 & ->).
  exists session, data, x. repeat (split; [assumption |]).
  cbn [candles df_index df_columns]. split.
  - rewrite (traverse_length _ _ _ Hst).
    rewrite <- (six_columns_cells x rows Hrows). now rewrite length_map.
  - intros raws i row -> Hi.
    apply six_columns_rows in Hrows. subst rows.
    assert (Hp : nth_error (map pad raws) i = Some (pad row))
      by (rewrite nth_error_map, Hi; reflexivity).
    split.
    + destruct (traverse_nth _ _ _ i _ Hst Hp) as (t & Ht & Hparse).
      exists t. split; [exact Ht |].
      unfold parse_timestamp in Hparse. rewrite field_pad in Hparse.
      destruct (to_datetime (field 0 row)); [| discriminate Hparse].
      injection Hparse as <-. reflexivity.
    + intros j key Hin. unfold float_column in *.
      cbn [In price_fields] in Hin.
      repeat (destruct Hin as [E | Hin];
              [injection E as <- <-; cbn [assoc String.eqb Ascii.eqb Bool.eqb];
               match goal with
               | Hcol : traverse (fun r => astype_float _ (field ?n r)) _
                        = Ok ?col |- context [Some ?col] =>
                   destruct (traverse_nth _ _ _ i _ Hcol Hp)
                     as (cl & Hcl & Hconv);
                   rewrite field_pad in Hconv;
                   exists col, cl; repeat split; assumption
               end |]).
      contradiction.
Qed.

Lemma fetched_cells_in_place_witness :
  exists df session data x,
    DemoFetch.fetch (Some session) = Some df /\
    payload_data data = Ok x /\
    List.length (df_index df) = List.length (timestamp_cells x).
Proof.
  destruct (DemoFetch.fetch (Some (Demo.serving DemoFetch.later_first)))
    as [df |] eqn:F; [| vm_compute in F; discriminate F].
  destruct (fetched_cells_in_place Demo.to_datetime Demo.float_of_string 0
              (Some (Demo.serving DemoFetch.later_first))
              "3045" "ONE_DAY" 365 df F)
    as (session & data & x & Hapi & _ & Hx & Hlen & _).
  injection Hapi as <-.
  exists df, (Demo.serving DemoFetch.later_first), data, x.
  repeat split; assumption.
Defined.

(** ** Payloads without rows and payloads that cannot be read *)

Lemma widest_uniform (raws : list (list raw)) (n : nat) :
  raws <> [] -> Forall (fun row => List.length row = n) raws ->
  widest raws = n.
Proof.
  intros Hne Hall. induction Hall as [| r raws Hr Hall IH];
    [contradiction |].
  cbn [widest fold_right]. destruct raws as [| r' raws].
  - cbn [fold_right]. lia.
  - fold (widest (r' :: raws)). rewrite IH by discriminate. lia.
Qed.

(** X3. When the gateway answers with data that is null or an empty list,
    [fetch_data] does not fail: it returns the frame without rows, which is
    empty, so that the handler does not take it as usable. *)
Theorem fetch_without_rows
    (to_datetime : raw -> option Timestamp)
    (float_of_string : string -> option float)
    (now : Timestamp) (session : Session)
    (token interval : string) (days : Z) (data : payload) :
  getCandleData session
    {| exchange := "NSE"; symboltoken := token; interval := interval;
       fromdate := now - days * 1440; todate := now |} = Ok data ->
  payload_data data = Ok (JScalar RNull) \/ payload_data data = Ok (JRows [])
  ->
  fetch_data to_datetime float_of_string now (Some session)
             token interval days
  = Some (candles [] [] [] [] [] []) /\
  df_empty (candles [] [] [] [] [] []) = true /\
  usable (fetch_data to_datetime float_of_string now (Some session)
                     token interval days) = false.
Proof.
  intros Hcall Hx.
  assert (F : fetch_data to_datetime float_of_string now (Some session)
                         token interval days
              = Some (candles [] [] [] [] [] [])).
  { unfold fetch_data, fetch_body, bind. rewrite Hcall.
    destruct Hx as [-> | ->]; reflexivity. }
  rewrite F. repeat split; reflexivity.
Qed.

(** X4. When the gateway answers with a malformed payload, whichever way it
    is malformed, [fetch_data] returns [None]: one cell that cannot be read
    loses the whole fetch, not only its row. *)
Theorem malformed_payload_is_none
    (to_datetime : raw -> option Timestamp)
    (float_of_string : string -> option float)
    (now : Timestamp) (session : Session)
    (token interval : string) (days : Z) (data : payload) :
  getCandleData session
    {| exchange := "NSE"; symboltoken := token; interval := interval;
       fromdate := now - days * 1440; todate := now |} = Ok data ->
  malformed to_datetime float_of_string data ->
  fetch_data to_datetime float_of_string now (Some session)
             token interval days = None.
Proof.
  intros Hcall Hm.
  destruct (fetch_data to_datetime float_of_string now (Some session)
                       token interval days) as [df |] eqn:F;
    [exfalso | reflexivity].
  apply fetch_data_inv in F.
  destruct F as (session' & data' & x & rows & stamps & o & h & l & c & v
                 & Hapi & Hcall' & Hx & Hrows & Hst & Ho & Hh & Hl & Hc & Hv
                 & _).
  injection Hapi as <-. rewrite Hcall in Hcall'. injection Hcall' as <-.
  destruct Hm as [| fields Hno | fields s Hd Hs | fields raws n Hd Hne Hn Hall
                  | fields raws row Hd Hin Hbad
                  | fields raws row j key s Hd Hin Hj Hcell Hbad];
    cbn [payload_data] in Hx; try discriminate Hx;
    try (rewrite Hno in Hx; discriminate Hx);
    rewrite Hd in Hx; injection Hx as <-.
  - destruct s; try discriminate Hrows. now apply Hs.
  - cbn [six_columns] in Hrows. destruct raws as [| r raws];
      [now apply Hne |].
    rewrite (widest_uniform (r :: raws) n Hne Hall) in Hrows.
    destruct (Nat.eqb_spec n 6); [contradiction | discriminate Hrows].
  - apply six_columns_rows in Hrows. subst rows.
    destruct (traverse_all _ _ _ (pad row) Hst (in_map pad _ _ Hin))
      as (t & Hparse & _).
    unfold parse_timestamp in Hparse. rewrite field_pad, Hbad in Hparse.
    discriminate Hparse.
  - apply six_columns_rows in Hrows. subst rows.
    assert (Hraise : astype_float float_of_string (field j (pad row))
                     = Raise ValueError).
    { rewrite field_pad, Hcell. cbn [astype_float]. now rewrite Hbad. }
    unfold float_column in *. cbn [In price_fields] in Hj.
    repeat (destruct Hj as [E | Hj];
            [injection E as <- <-;
             match goal with
             | Hcol : traverse (fun r => astype_float _ (field ?n r)) _ = Ok _
               |- _ =>
                 match type of Hraise with
                 | context [field n _] =>
                     destruct (traverse_all _ _ _ (pad row) Hcol
                                 (in_map pad _ _ Hin)) as (b & Hb & _);
                     rewrite Hraise in Hb; discriminate Hb
                 end
             end |]).
    contradiction.
Qed.

Lemma fetch_without_rows_witness :
  DemoFetch.fetch (Some DemoFetch.no_data)
  = Some (candles [] [] [] [] [] []) /\
  usable (DemoFetch.fetch (Some DemoFetch.no_data)) = false.
Proof.
  destruct (fetch_without_rows Demo.to_datetime Demo.float_of_string 0
              DemoFetch.no_data "3045" "ONE_DAY" 365
              (PDict [("status", JScalar RNull); ("data", JScalar RNull)])
              eq_refl (or_introl eq_refl)) as (F & _ & U).
  split; [exact F | exact U].
Defined.

Lemma malformed_payload_is_none_witness :
  DemoFetch.fetch (Some (Demo.serving DemoEdges.bad_price)) = None.
Proof.
  unfold DemoFetch.fetch.
  apply (malformed_payload_is_none Demo.to_datetime Demo.float_of_string 0
           (Demo.serving DemoEdges.bad_price) "3045" "ONE_DAY" 365
           (PDict [("data", JRows DemoEdges.bad_price)]) eq_refl).
  apply (bad_number Demo.to_datetime Demo.float_of_string
           [("data", JRows DemoEdges.bad_price)] DemoEdges.bad_price
           [RStr "2024-01-01 00:00"; RInt 100; RStr "n/a"; RInt 99; RInt 101;
            RInt 5000] 2 "High" "n/a").
  - reflexivity.
  - left. reflexivity.
  - right. left. reflexivity.
  - reflexivity.
  - reflexivity.
Defined.

(* ================================================================== *)
(** ** The keys that are there after the engine *)

Lemma has_column_In (key : string) (df : DataFrame) :
  has_column key df = true <-> In key (column_names df).
Proof.
  unfold has_column, column_names.
  induction (df_columns df) as [| [k v] cols IH]; cbn [assoc map fst In].
  - split; [discriminate | contradiction].
  - destruct (String.eqb_spec key k) as [-> | Hne].
    + split; [left; reflexivity | reflexivity].
    + rewrite IH. split; [right; assumption |].
      intros [E | Hin]; [congruence | exact Hin].
Qed.

Lemma writes_only_keeps {A : Type} (keys : list string) (m : Upd A) :
  writes_only keys m -> keeps_columns m.
Proof.
  intros W df key H. destruct (W df) as (_ & _ & added & N).
  apply has_column_In. rewrite N. apply in_or_app. left.
  now apply has_column_In.
Qed.

Lemma has_column_set_column (key : string) (v : list cell)
    (cols : list (string * list cell)) (idx : list Timestamp) :
  has_column key {| df_index := idx; df_columns := set_column key v cols |}
  = true.
Proof.
  unfold has_column. cbn [df_columns].
  induction cols as [| [k old] cols IH]; cbn [set_column assoc].
  - now rewrite String.eqb_refl.
  - destruct (String.eqb key k) eqn:E; cbn [assoc]; rewrite E;
      [reflexivity | exact IH].
Qed.

Section Establishes.

Variable key : string.

Lemma establishes_later {A B : Type} (m : Upd A) (k : A -> Upd B) :
  (forall a, establishes key (k a)) -> establishes key (ubind m k).
Proof.
  intros Hk df df' b. unfold ubind.
  destruct (m df) as [df1 [a | e]]; [| discriminate]. apply Hk.
Qed.

Lemma establishes_setitem (value : option Series) :
  establishes key (setitem key value).
Proof.
  intros df df' a H. unfold setitem in H. injection H as <- _.
  apply has_column_set_column.
Qed.

Lemma establishes_getitem : establishes key (getitem key).
Proof.
  intros df df' a. unfold getitem, frame_get, has_column.
  destruct (assoc key (df_columns df)) eqn:E; intros H; [| discriminate H].
  injection H as <- _. now rewrite E.
Qed.

Lemma establishes_now {A B : Type} (m : Upd A) (k : A -> Upd B) :
  establishes key m -> (forall a, keeps_columns (k a)) ->
  establishes key (ubind m k).
Proof.
  intros Hm Hk df df' b. unfold ubind.
  destruct (m df) as [df1 [a | e]] eqn:E; [| discriminate].
  intros H. specialize (Hk a df1 key (Hm _ _ _ E)).
  rewrite H in Hk. exact Hk.
Qed.

End Establishes.

(** Following the code to the place where [key] is read or assigned. *)
Ltac keep_columns :=
  apply (writes_only_keeps (engine_keys true)); repeat frame_step.

Ltac establish :=
  first
    [ apply establishes_setitem
    | apply establishes_getitem
    | apply establishes_now; [establish | intros ?; keep_columns]
    | apply establishes_later; intros ?; establish ].

Lemma engine_establishes (ta : TaLib) (is_intraday : bool) (key : string) :
  In key (["High"; "Low"; "Close"; "Volume"]
            ++ unguarded_keys is_intraday)%list ->
  establishes key (add_indicators ta is_intraday).
Proof.
  intros Hin.
  unfold add_indicators, add_supertrend, add_macd, add_bbands, add_vwap.
  destruct is_intraday; cbn [In app unguarded_keys] in Hin;
    repeat (destruct Hin as [<- | Hin]; [establish |]); contradiction.
Qed.

(** X5. Whenever [add_indicators] returns, whatever the library returned,
    the frame has the columns High, Low, Close and Volume it read and the
    columns SMA_50, EMA_50, RSI and Vol_SMA_5, and VWAP as well when
    [is_intraday] is true: these keys are assigned without a guard. *)
Theorem unguarded_keys_present (ta : TaLib) (is_intraday : bool)
    (df df' : DataFrame) :
  add_indicators ta is_intraday df = (df', Ok tt) ->
  forall key,
    In key (["High"; "Low"; "Close"; "Volume"]
              ++ unguarded_keys is_intraday)%list ->
    has_column key df' = true.
Proof.
  intros H key Hin.
  exact (engine_establishes ta is_intraday key Hin df df' tt H).
Qed.

Lemma unguarded_keys_present_witness :
  has_column "EMA_50"
    (fst (add_indicators Demo.ta_none true Demo.two_candles)) = true /\
  has_column "VWAP"
    (fst (add_indicators Demo.ta_none true Demo.two_candles)) = true.
Proof.
  assert (H : add_indicators Demo.ta_none true Demo.two_candles
              = (fst (add_indicators Demo.ta_none true Demo.two_candles),
                 Ok tt)) by (vm_compute; reflexivity).
  split.
  - apply (unguarded_keys_present Demo.ta_none true Demo.two_candles _ H).
    cbn. tauto.
  - apply (unguarded_keys_present Demo.ta_none true Demo.two_candles _ H).
    cbn. tauto.
Defined.

(* ================================================================== *)
(** ** How the engine ends on a frame of candles *)

Lemma assoc_of_name {A : Type} (key : string) (l : list (string * A)) :
  In key (map fst l) -> exists v, assoc key l = Some v.
Proof.
  induction l as [| [k v] l IH]; cbn [map fst In assoc]; [contradiction |].
  intros [-> | Hin].
  - rewrite String.eqb_refl. now exists v.
  - destruct (String.eqb key k); [now exists v | exact (IH Hin)].
Qed.

(** The search for a column by prefix: it finds a column of the frame, or it
    is an [IndexError]; and it finds one exactly when there is one. *)
Lemma first_with_prefix_spec (p : string) (df : DataFrame) :
  match first_with_prefix p df with
  | Ok col =>
      has_prefix p df = true /\ String.prefix p col = true /\
      exists v, assoc col (df_columns df) = Some v
  | Raise e => e = IndexError /\ has_prefix p df = false
  end.
Proof.
  unfold first_with_prefix, has_prefix.
  destruct (filter (String.prefix p) (column_names df)) as [| col rest] eqn:F.
  - split; [reflexivity |].
    destruct (existsb (String.prefix p) (column_names df)) eqn:E;
      [| reflexivity].
    apply existsb_exists in E. destruct E as (x & Hin & Hx).
    assert (Hf : In x (filter (String.prefix p) (column_names df)))
      by (apply filter_In; split; assumption).
    rewrite F in Hf. contradiction.
  - assert (Hf : In col (filter (String.prefix p) (column_names df)))
      by (rewrite F; left; reflexivity).
    apply filter_In in Hf. destruct Hf as [Hin Hp].
    split; [| split; [exact Hp |]].
    + apply existsb_exists. exists col. split; assumption.
    + apply assoc_of_name. exact Hin.
Qed.

(** One step along the engine, the library results and the searches taken
    with what is known about them. *)
Ltac engine_outcome_step :=
  match goal with
  | |- context [match first_with_prefix ?p ?f with _ => _ end] =>
      let H := fresh "Hfound" in
      pose proof (first_with_prefix_spec p f) as H;
      destruct (first_with_prefix p f) as [? | ?];
      [ destruct H as (H & _ & (? & ?)) | destruct H as [-> H] ]
  | E : assoc ?c (df_columns ?f) = Some _
    |- context [match assoc ?c (df_columns ?f) with _ => _ end] =>
      rewrite E
  | |- context [match ?x with _ => _ end] =>
      lazymatch x with
      | ta_supertrend _ _ _ _ _ _ => destruct x
      | ta_macd _ _ => destruct x
      | ta_bbands _ _ _ => destruct x
      end
  end.

(** X6. On a frame of candles [add_indicators] returns or raises
    [IndexError], nothing else; and it returns exactly when each of the
    three results it searches by column name (Supertrend, MACD, Bollinger
    Bands) is either no result or a frame that has the columns searched
    for. *)
Theorem engine_outcome_on_candles (ta : TaLib) (is_intraday : bool)
    (idx : list Timestamp) (open high low close volume : list cell) :
  let High := {| s_index := idx; s_values := high |} in
  let Low := {| s_index := idx; s_values := low |} in
  let Close := {| s_index := idx; s_values := close |} in
  snd (add_indicators ta is_intraday
         (candles idx open high low close volume))
  = if names_found ["SUPERT_"] (ta_supertrend ta High Low Close 10 3)
       && names_found ["MACD_"; "MACDs_"] (ta_macd ta Close)
       && names_found ["BBU_"; "BBL_"] (ta_bbands ta Close 20)
    then Ok tt
    else Raise IndexError.
Proof.
  cbv zeta. run_engine.
  repeat (engine_outcome_step; engine_simpl);
    unfold names_found; cbn [forallb];
    repeat match goal with
           | H : has_prefix _ _ = _ |- _ => rewrite H; clear H
           end;
    destruct is_intraday; reflexivity.
Qed.

(** The three ways the stand-in libraries end. *)
Example engine_outcomes :
  snd (add_indicators Demo.ta_echo true Demo.two_candles) = Ok tt /\
  snd (add_indicators Demo.ta_none true Demo.two_candles) = Ok tt /\
  snd (add_indicators Demo.ta_no_trend_line true Demo.two_candles)
  = Raise IndexError.
Proof. repeat split; vm_compute; reflexivity. Qed.

Ltac engine_content_step :=
  match goal with
  | |- context [first_with_prefix ?p ?f] =>
      let H := fresh "Hfound" in
      pose proof (first_with_prefix_spec p f) as H;
      destruct (first_with_prefix p f) as [? | ?];
      [ destruct H as (_ & _ & (? & ?)) | destruct H as [_ H] ]
  | E : assoc ?c (df_columns ?f) = Some _
    |- context [assoc ?c (df_columns ?f)] => rewrite E
  | |- context [match ?x with _ => _ end] =>
      lazymatch x with
      | ta_supertrend _ _ _ _ _ _ => destruct x
      | ta_macd _ _ => destruct x
      | ta_bbands _ _ _ => destruct x
      end
  end.

(** X7. When [add_indicators] returns on a frame of candles, the frame is
    the five candle columns followed by the indicator columns in the order
    of the code: SMA_50, EMA_50, Supertrend, RSI, MACD, MACD_Signal,
    BB_Upper, BB_Lower, Vol_SMA_5 and, intraday, VWAP, the guarded ones only
    when the library had a result.  Each holds what the library computed
    from the candles as they were fetched: no assignment changes what a
    later one reads or what an earlier one wrote. *)
Theorem engine_frame_on_candles (ta : TaLib) (is_intraday : bool)
    (idx : list Timestamp) (open high low close volume : list cell) :
  snd (add_indicators ta is_intraday
         (candles idx open high low close volume)) = Ok tt ->
  fst (add_indicators ta is_intraday
         (candles idx open high low close volume))
  = {| df_index := idx;
       df_columns :=
         (df_columns (candles idx open high low close volume)
            ++ indicator_columns ta is_intraday idx high low close volume)
           %list |}.
Proof.
  unfold indicator_columns, guarded_columns, picked. cbv zeta.
  run_engine. cbn [flat_map app].
  repeat (engine_content_step; engine_simpl; cbn [flat_map app]);
    destruct is_intraday; cbn [fst snd app];
    intros Hret; try discriminate Hret; reflexivity.
Qed.

Lemma engine_frame_on_candles_witness :
  column_names (fst (add_indicators Demo.ta_echo true Demo.two_candles))
  = ["Open"; "High"; "Low"; "Close"; "Volume"; "SMA_50"; "EMA_50";
     "Supertrend"; "RSI"; "MACD"; "MACD_Signal"; "BB_Upper"; "BB_Lower";
     "Vol_SMA_5"; "VWAP"].
Proof.
  unfold Demo.two_candles.
  rewrite (engine_frame_on_candles Demo.ta_echo true
             [202401010915; 202401010930]
             [Demo.fl 100; Demo.fl 101] [Demo.fl 102; Demo.fl 103]
             [Demo.fl 99; Demo.fl 100] [Demo.fl 101; Demo.fl 102]
             [Demo.fl 5000; Demo.fl 7000]).
  - vm_compute. reflexivity.
  - vm_compute. reflexivity.
Defined.

(* ================================================================== *)
(** ** The comparisons of the scorer, on numbers *)

Lemma row_value_float (r : Row) (key : string) (x : float) (q : Q) :
  assoc key r = Some (PyFloat x) -> row_value r key = Some q ->
  Float64.valid x = true /\ Float64.to_Q x = Some q.
Proof.
  unfold row_value, value_of. intros ->.
  destruct (Float64.valid x); [| discriminate]. intros H. now split.
Qed.

(** [a > b] between two cells that stand for numbers. *)
Lemma gt_by_value (r : Row) (ka kb : string) (x y : float) (a b : Q) :
  assoc ka r = Some (PyFloat x) -> assoc kb r = Some (PyFloat y) ->
  row_value r ka = Some a -> row_value r kb = Some b ->
  Float64.ltb y x = true <-> (b < a)%Q.
Proof.
  intros Hx Hy Ha Hb.
  destruct (row_value_float r ka x a Hx Ha) as [Vx Qx].
  destruct (row_value_float r kb y b Hy Hb) as [Vy Qy].
  exact (Float64Facts.ltb_spec y x b a Vy Vx Qy Qx).
Qed.

(** X8. In every verdict, on cells that stand for numbers: trend is bullish
    exactly when Close is strictly above EMA_50, volume exactly when Volume
    is strictly above Vol_SMA_5, and the intraday gate exactly when the
    intraday Close is strictly above VWAP.  A tie is never bullish. *)
Theorem comparisons_are_strict (last_day last_15 : Row) (v : Verdict) :
  rule_of_three last_day last_15 = Ok v ->
  (forall a b,
     row_value last_day "Close" = Some a ->
     row_value last_day "EMA_50" = Some b ->
     (trend_bullish v = true <-> (b < a)%Q) /\
     ((a == b)%Q -> trend_bullish v = false)) /\
  (forall a b,
     row_value last_day "Volume" = Some a ->
     row_value last_day "Vol_SMA_5" = Some b ->
     (vol_bullish v = true <-> (b < a)%Q) /\
     ((a == b)%Q -> vol_bullish v = false)) /\
  (forall a b,
     row_value last_15 "Close" = Some a ->
     row_value last_15 "VWAP" = Some b ->
     (intra_bullish v = true <-> (b < a)%Q) /\
     ((a == b)%Q -> intra_bullish v = false)).
Proof.
  intros H. apply rule_of_three_inv in H.
  destruct H as (c & e & r & vo & vs & c15 & w
                 & Hc & He & Hr & Hvo & Hvs & Hc15 & Hw & ->).
  cbn [trend_bullish vol_bullish intra_bullish].
  assert (T : forall (x y : float) (a b : Q),
             (Float64.ltb y x = true <-> (b < a)%Q) ->
             (Float64.ltb y x = true <-> (b < a)%Q) /\
             ((a == b)%Q -> Float64.ltb y x = false)).
  { intros x y a b I. split; [exact I |]. intros E.
    destruct (Float64.ltb y x); [| reflexivity].
    exfalso. destruct I as [I _]. specialize (I eq_refl).
    rewrite E in I. exact (Qlt_irrefl _ I). }
  split; [| split]; intros a b Ha Hb; apply T.
  - exact (gt_by_value last_day "Close" "EMA_50" c e a b Hc He Ha Hb).
  - exact (gt_by_value last_day "Volume" "Vol_SMA_5" vo vs a b Hvo Hvs Ha Hb).
  - exact (gt_by_value last_15 "Close" "VWAP" c15 w a b Hc15 Hw Ha Hb).
Qed.

Lemma comparisons_are_strict_witness :
  trend_bullish DemoScores.tie_verdict = false /\
  vol_bullish DemoScores.tie_verdict = false /\
  intra_bullish DemoScores.tie_verdict = false.
Proof.
  assert (H : rule_of_three DemoScores.tie_day DemoScores.tie_15
              = Ok DemoScores.tie_verdict) by (vm_compute; reflexivity).
  destruct (comparisons_are_strict _ _ _ H) as (T & V & G).
  split; [| split].
  - eapply (proj2 (T _ _ _ _)). Unshelve.
    all: try (vm_compute; reflexivity).
  - eapply (proj2 (V _ _ _ _)). Unshelve.
    all: try (vm_compute; reflexivity).
  - eapply (proj2 (G _ _ _ _)). Unshelve.
    all: try (vm_compute; reflexivity).
Defined.

(* ================================================================== *)
(** ** The verdict from the four comparisons *)

(** X9. In every verdict the banner follows from the four comparisons
    alone: STRONG_BUY exactly when trend, momentum, volume and the intraday
    gate are all bullish; NO_TRADE exactly when at most one of trend,
    momentum and volume is bullish; WATCHLIST exactly when two of the three
    are bullish, or all three with the gate bearish. *)
Theorem verdict_from_comparisons (last_day last_15 : Row) (v : Verdict) :
  rule_of_three last_day last_15 = Ok v ->
  (classification v = STRONG_BUY <->
     trend_bullish v = true /\ mom_bullish v = true /\
     vol_bullish v = true /\ intra_bullish v = true) /\
  (classification v = NO_TRADE <-> (bullish_count v <= 1)%nat) /\
  (classification v = WATCHLIST <->
     bullish_count v = 2%nat \/
     (bullish_count v = 3%nat /\ intra_bullish v = false)).
Proof.
  intros H. apply rule_of_three_inv in H.
  destruct H as (c & e & r & vo & vs & c15 & w
                 & _ & _ & _ & _ & _ & _ & _ & ->).
  unfold bullish_count.
  cbn [trend_bullish mom_bullish vol_bullish intra_bullish classification].
  destruct (Float64.ltb e c), (Float64.ltb f50 r && Float64.ltb r f70),
    (Float64.ltb vs vo), (Float64.ltb w c15);
    cbn; repeat split; intros; try discriminate; try lia;
    try reflexivity;
    repeat match goal with
           | H : _ /\ _ |- _ => destruct H
           | H : _ \/ _ |- _ => destruct H
           end;
    try discriminate; try lia;
    first [left; reflexivity | right; split; reflexivity | idtac].
Qed.

Lemma verdict_from_comparisons_witness :
  classification Demo.bull_verdict = STRONG_BUY <->
  trend_bullish Demo.bull_verdict = true /\
  mom_bullish Demo.bull_verdict = true /\
  vol_bullish Demo.bull_verdict = true /\
  intra_bullish Demo.bull_verdict = true.
Proof.
  apply (verdict_from_comparisons Demo.bull_day Demo.bull_15).
  vm_compute. reflexivity.
Defined.

(* ================================================================== *)
(** ** The exceptions of the analysis *)

Lemma engine_failure_back (df df1 : DataFrame) (e : exn) :
  same_outside (engine_keys true) df df1 ->
  engine_failure df1 e -> engine_failure df e.
Proof.
  intros S [-> | (key & -> & Hin & Hno)]; [left; reflexivity |].
  right. exists key. repeat split; try assumption.
  unfold has_column in *.
  rewrite <- (same_outside_assoc (engine_keys true) df df1 key S); [exact Hno |].
  cbn [In engine_inputs] in Hin.
  repeat (destruct Hin as [<- | Hin]; [reflexivity |]). contradiction.
Qed.

Section FailsAsEngine.

Lemma fails_ret {A : Type} (a : A) : fails_as_engine (ret a).
Proof. intros df df' e H. discriminate H. Qed.

Lemma fails_setitem (key : string) (value : option Series) :
  fails_as_engine (setitem key value).
Proof. intros df df' e H. discriminate H. Qed.

Lemma fails_getitem (key : string) :
  In key engine_inputs -> fails_as_engine (getitem key).
Proof.
  intros Hin df df' e. unfold getitem, frame_get.
  destruct (assoc key (df_columns df)) eqn:E; intros H; [discriminate H |].
  injection H as <- <-. right. exists key. repeat split; [exact Hin |].
  unfold has_column. now rewrite E.
Qed.

Lemma fails_lift_ok {A B : Type} (a : A) (k : A -> Upd B) :
  fails_as_engine (k a) -> fails_as_engine (ubind (lift (Ok a)) k).
Proof. intros Hk df df' e. unfold ubind, lift. apply Hk. Qed.

Lemma fails_lift_index {A B : Type} (k : A -> Upd B) :
  fails_as_engine (ubind (lift (Raise IndexError)) k).
Proof.
  intros df df' e. unfold ubind, lift. intros H. injection H as _ <-.
  left. reflexivity.
Qed.

Lemma fails_bind {A B : Type} (m : Upd A) (k : A -> Upd B) :
  fails_as_engine m -> writes_only (engine_keys true) m ->
  (forall a, fails_as_engine (k a)) ->
  fails_as_engine (ubind m k).
Proof.
  intros Hm Wm Hk df df' e. unfold ubind.
  pose proof (Wm df) as S.
  destruct (m df) as [df1 [a | e1]] eqn:E; cbn [fst] in S.
  - intros H. apply (engine_failure_back df df1 e S). exact (Hk a _ _ _ H).
  - intros H. injection H as _ <-. exact (Hm _ _ _ E).
Qed.

End FailsAsEngine.

Lemma frame_get_found (df : DataFrame) (key : string) (v : list cell) :
  assoc key (df_columns df) = Some v ->
  frame_get df key = Ok {| s_index := df_index df; s_values := v |}.
Proof. unfold frame_get. now intros ->. Qed.

(** Following the code and collecting how each statement may fail. *)
Ltac engine_fails :=
  cbv beta iota;
  lazymatch goal with
  | |- fails_as_engine (ret _) => apply fails_ret
  | |- fails_as_engine (setitem _ _) => apply fails_setitem
  | |- fails_as_engine (getitem _) =>
      apply fails_getitem; cbn [In engine_inputs]; tauto
  | |- fails_as_engine (ubind (lift (first_with_prefix ?p ?f)) _) =>
      let H := fresh "Hfound" in
      pose proof (first_with_prefix_spec p f) as H;
      destruct (first_with_prefix p f) as [? | ?];
      [ destruct H as (_ & _ & (? & ?)); apply fails_lift_ok; engine_fails
      | destruct H as [-> _]; apply fails_lift_index ]
  | E : assoc ?c (df_columns ?f) = Some _
    |- fails_as_engine (ubind (lift (frame_get ?f ?c)) _) =>
      rewrite (frame_get_found f c _ E); apply fails_lift_ok; engine_fails
  | |- fails_as_engine (ubind _ _) =>
      apply fails_bind;
      [ engine_fails | repeat frame_step | intros ?; engine_fails ]
  | |- fails_as_engine (match ?x with _ => _ end) =>
      destruct x; engine_fails
  end.

Lemma add_indicators_fails (ta : TaLib) (is_intraday : bool) :
  fails_as_engine (add_indicators ta is_intraday).
Proof.
  unfold add_indicators, add_supertrend, add_macd, add_bbands, add_vwap.
  destruct is_intraday; engine_fails.
Qed.

(** A [KeyError] of the scorer names a field that its row does not have. *)
Lemma rule_of_three_keyerror (last_day last_15 : Row) (key : string) :
  rule_of_three last_day last_15 = Raise (KeyError key) ->
  (In key daily_fields /\ assoc key last_day = None) \/
  (In key intraday_fields /\ assoc key last_15 = None).
Proof.
  unfold rule_of_three, row_get, rsi_in_band, py_lt, py_gt, bind.
  intros H.
  repeat match type of H with
         | context [match assoc ?k ?r with _ => _ end] =>
             destruct (assoc k r) as [[|?x]|] eqn:?;
             cbv beta iota in H; try discriminate H
         | context [if Float64.ltb f50 ?r then _ else _] =>
             destruct (Float64.ltb f50 r); cbv beta iota in H;
             try discriminate H
         end;
    injection H as <-;
    first [ left; split; [cbn; tauto | assumption]
          | right; split; [cbn; tauto | assumption] ].
Qed.

Lemma assoc_map_snd {A B : Type} (g : A -> B) (key : string)
    (l : list (string * A)) :
  assoc key (map (fun kv => (fst kv, g (snd kv))) l)
  = option_map g (assoc key l).
Proof.
  induction l as [| [k v] l IH]; [reflexivity |].
  cbn [map assoc fst snd]. destruct (String.eqb key k); [reflexivity | exact IH].
Qed.

(** The last row has the fields that the frame has columns. *)
Lemma iloc_last_fields (df : DataFrame) (row : Row) (key : string) :
  iloc_last df = Ok row ->
  assoc key row
  = option_map (fun col => last col (PyFloat Float64.nan))
               (assoc key (df_columns df)).
Proof.
  unfold iloc_last. destruct (df_index df); intros H; [discriminate H |].
  injection H as <-.
  exact (assoc_map_snd (fun col => last col (PyFloat Float64.nan)) key _).
Qed.

Lemma iloc_last_has (df : DataFrame) (row : Row) (key : string) :
  iloc_last df = Ok row -> has_column key df = true ->
  assoc key row <> None.
Proof.
  intros H Hc. rewrite (iloc_last_fields df row key H).
  unfold has_column in Hc. destruct (assoc key (df_columns df));
    [discriminate | discriminate Hc].
Qed.

Lemma iloc_last_raises (df : DataFrame) (e : exn) :
  iloc_last df = Raise e -> e = IndexError.
Proof.
  unfold iloc_last. destruct (df_index df); intros H; [| discriminate H].
  now injection H as <-.
Qed.

(** The exceptions of the analysis, and where they come from. *)
Lemma analysis_exceptions_aux (ta : TaLib) (df_daily df_intra : DataFrame)
    (shown : list ui_event) (e : exn) :
  analysis ta df_daily df_intra = (shown, Raise e) ->
  ((e = TypeError /\ shown = [st_title]) \/
   (e = IndexError /\ shown = []) \/
   (exists key,
       e = KeyError key /\ shown = [] /\ In key engine_inputs /\
       (has_column key df_daily = false \/ has_column key df_intra = false)))
  /\
  (forall idx open high low close volume idx' open' high' low' close' volume',
      df_daily = candles idx open high low close volume ->
      df_intra = candles idx' open' high' low' close' volume' ->
      e = TypeError \/ e = IndexError).
Proof.
  intros H.
  assert (Main :
    (e = TypeError /\ shown = [st_title]) \/
    (e = IndexError /\ shown = []) \/
    (exists key,
        e = KeyError key /\ shown = [] /\ In key engine_inputs /\
        (has_column key df_daily = false \/
         has_column key df_intra = false))).
  { unfold analysis in H.
    destruct (add_indicators ta false df_daily) as [d' [[] | e1]] eqn:Ed.
    2:{ injection H as <- <-.
        destruct (add_indicators_fails ta false _ _ _ Ed)
          as [-> | (key & -> & Hin & Hno)].
        - right. left. split; reflexivity.
        - right. right. exists key. repeat split; try assumption.
          left. exact Hno. }
    destruct (add_indicators ta true df_intra) as [i' [[] | e1]] eqn:Ei.
    2:{ injection H as <- <-.
        destruct (add_indicators_fails ta true _ _ _ Ei)
          as [-> | (key & -> & Hin & Hno)].
        - right. left. split; reflexivity.
        - right. right. exists key. repeat split; try assumption.
          right. exact Hno. }
    destruct (iloc_last d') as [last_day | e1] eqn:Ld.
    2:{ injection H as <- <-. right. left.
        split; [exact (iloc_last_raises _ _ Ld) | reflexivity]. }
    destruct (iloc_last i') as [last_15 | e1] eqn:Li.
    2:{ injection H as <- <-. right. left.
        split; [exact (iloc_last_raises _ _ Li) | reflexivity]. }
    destruct (rule_of_three last_day last_15) as [v | e1] eqn:R;
      [discriminate H |].
    injection H as <- <-.
    destruct (rule_of_three_raises _ _ _ R) as [-> | (key & ->)].
    - left. split; reflexivity.
    - exfalso.
      destruct (rule_of_three_keyerror _ _ _ R) as [[Hin Hno] | [Hin Hno]].
      + apply (iloc_last_has d' last_day key Ld); [| exact Hno].
        apply (fun K => engine_establishes ta false key K df_daily d' tt Ed).
        cbn [In daily_fields] in Hin. cbn [In app unguarded_keys].
        tauto.
      + apply (iloc_last_has i' last_15 key Li); [| exact Hno].
        apply (fun K => engine_establishes ta true key K df_intra i' tt Ei).
        cbn [In intraday_fields] in Hin. cbn [In app unguarded_keys].
        tauto. }
  split; [exact Main |].
  intros idx o h l c v idx' o' h' l' c' v' -> ->.
  destruct Main as [[-> _] | [[-> _] | (key & _ & _ & Hin & Hno)]];
    [left; reflexivity | right; reflexivity | exfalso].
  cbn [In engine_inputs] in Hin.
  destruct Hno as [Hno | Hno];
    repeat (destruct Hin as [<- | Hin]; [discriminate Hno |]);
    contradiction.
Qed.

(** X10. When the analysis of two fetched frames ends in an exception, it
    is one of three.  A [TypeError], raised by the scorer on a field that
    is [None], after the title and before any metric or banner.  An
    [IndexError], raised before anything is shown.  Or a [KeyError] for
    High, Low, Close or Volume, raised by the engine before anything is
    shown, on a frame that lacks that column; the scorer itself never
    meets a missing key on frames that went through the engine, so on two
    frames of candles only the first two remain. *)
Theorem analysis_exceptions (ta : TaLib) (df_daily df_intra : DataFrame)
    (shown : list ui_event) (e : exn) :
  analysis ta df_daily df_intra = (shown, Raise e) ->
  ((e = TypeError /\ shown = [st_title]) \/
   (e = IndexError /\ shown = []) \/
   (exists key,
       e = KeyError key /\ shown = [] /\ In key engine_inputs /\
       (has_column key df_daily = false \/ has_column key df_intra = false)))
  /\
  (forall idx open high low close volume idx' open' high' low' close' volume',
      df_daily = candles idx open high low close volume ->
      df_intra = candles idx' open' high' low' close' volume' ->
      e = TypeError \/ e = IndexError).
Proof. exact (analysis_exceptions_aux ta df_daily df_intra shown e). Qed.

Lemma analysis_exceptions_witness :
  (TypeError = TypeError /\ [st_title] = [st_title]) \/
  (TypeError = IndexError /\ [st_title] = []) \/
  (exists key,
      TypeError = KeyError key /\ [st_title] = [] /\ In key engine_inputs /\
      (has_column key Demo.two_candles = false \/
       has_column key Demo.two_candles = false)).
Proof.
  apply (analysis_exceptions Demo.ta_none Demo.two_candles Demo.two_candles
           [st_title] TypeError).
  vm_compute. reflexivity.
Defined.

(* ================================================================== *)
(** ** The charts *)

Lemma in_columns_has (key : string) (df : DataFrame) :
  existsb (String.eqb key) (column_names df) = has_column key df.
Proof.
  unfold has_column, column_names.
  induction (df_columns df) as [| [k v] cols IH]; [reflexivity |].
  cbn [map fst existsb assoc]. destruct (String.eqb key k);
    [reflexivity | exact IH].
Qed.

Ltac read_column key df :=
  let E := fresh "E" in
  destruct (assoc key (df_columns df)) as [? |] eqn:E;
  cbn [negb bind]; [| reflexivity].

(** What each figure reads, and what it draws. *)
Lemma figures_follow_columns_aux (df : DataFrame) :
  match first_missing daily_chart_inputs df with
  | Some key => daily_figure df = Raise (KeyError key)
  | None =>
      exists fig,
        daily_figure df = Ok fig /\
        map trace_name fig
        = (["Price"; "50 EMA"]
             ++ (if has_column "Supertrend" df then ["Supertrend"] else [])
             ++ ["MACD Hist"])%list
  end /\
  match first_missing intraday_chart_inputs df with
  | Some key => intraday_figure df = Raise (KeyError key)
  | None =>
      exists fig,
        intraday_figure df = Ok fig /\
        map trace_name fig
        = (["Intraday Price"]
             ++ (if has_column "VWAP" df then ["VWAP"] else []))%list
  end.
Proof.
  unfold first_missing, daily_chart_inputs, intraday_chart_inputs,
    daily_figure, intraday_figure, frame_get.
  rewrite !in_columns_has. unfold has_column. cbn [find].
  split.
  - read_column "Open" df. read_column "High" df. read_column "Low" df.
    read_column "Close" df. read_column "EMA_50" df.
    destruct (assoc "Supertrend" (df_columns df)) eqn:Est; cbn [bind];
      read_column "MACD" df; read_column "MACD_Signal" df;
      eexists; split; reflexivity.
  - read_column "Open" df. read_column "High" df. read_column "Low" df.
    read_column "Close" df.
    destruct (assoc "VWAP" (df_columns df)) eqn:Ev; cbn [bind];
      eexists; split; reflexivity.
Qed.

(** X11. The figure of the daily tab is built exactly when the frame has
    the columns Open, High, Low, Close, EMA_50, MACD and MACD_Signal; if one
    is missing, the first missing one in this order is a [KeyError] and no
    figure is made.  Supertrend is drawn when its column is there and left
    out when it is not, without failing.  The intraday tab likewise needs
    Open, High, Low and Close, and draws VWAP only when it is there. *)
Theorem figures_follow_columns (df : DataFrame) :
  match first_missing daily_chart_inputs df with
  | Some key => daily_figure df = Raise (KeyError key)
  | None =>
      exists fig,
        daily_figure df = Ok fig /\
        map trace_name fig
        = (["Price"; "50 EMA"]
             ++ (if has_column "Supertrend" df then ["Supertrend"] else [])
             ++ ["MACD Hist"])%list
  end /\
  match first_missing intraday_chart_inputs df with
  | Some key => intraday_figure df = Raise (KeyError key)
  | None =>
      exists fig,
        intraday_figure df = Ok fig /\
        map trace_name fig
        = (["Intraday Price"]
             ++ (if has_column "VWAP" df then ["VWAP"] else []))%list
  end.
Proof. exact (figures_follow_columns_aux df). Qed.

Lemma analysis_ok_engine (ta : TaLib) (df_daily df_intra : DataFrame)
    (shown : list ui_event) (v : Verdict) :
  analysis ta df_daily df_intra = (shown, Ok v) ->
  snd (add_indicators ta false df_daily) = Ok tt /\
  snd (add_indicators ta true df_intra) = Ok tt.
Proof.
  unfold analysis.
  destruct (add_indicators ta false df_daily) as [d' [[] | e]];
    [| discriminate].
  destruct (add_indicators ta true df_intra) as [i' [[] | e]];
    [| discriminate].
  intros _. split; reflexivity.
Qed.

Lemma candle_columns_kept (ta : TaLib) (is_intraday : bool)
    (df : DataFrame) (key : string) :
  In key ohlcv -> has_column key df = true ->
  has_column key (fst (add_indicators ta is_intraday df)) = true.
Proof.
  intros Hin H. unfold has_column in *.
  rewrite (same_outside_assoc (engine_keys is_intraday) df _ key
             (add_indicators_writes_only ta is_intraday df)); [exact H |].
  cbn [In ohlcv] in Hin.
  destruct is_intraday;
    repeat (destruct Hin as [<- | Hin]; [reflexivity |]); contradiction.
Qed.

(** With a MACD result, a run on candles that returns has both MACD
    columns. *)
Lemma macd_present (ta : TaLib) (is_intraday : bool)
    (idx : list Timestamp) (open high low close volume : list cell)
    (macd : DataFrame) :
  ta_macd ta {| s_index := idx; s_values := close |} = Some macd ->
  snd (add_indicators ta is_intraday
         (candles idx open high low close volume)) = Ok tt ->
  has_column "MACD"
    (fst (add_indicators ta is_intraday
            (candles idx open high low close volume))) = true /\
  has_column "MACD_Signal"
    (fst (add_indicators ta is_intraday
            (candles idx open high low close volume))) = true.
Proof.
  intros Hm. run_engine.
  repeat (first [rewrite Hm | engine_content_step]; engine_simpl);
    destruct is_intraday; cbn [fst snd];
    intros Hret; try discriminate Hret; split; reflexivity.
Qed.

(** After the banner: the charts and the MACD of the daily frame. *)
Lemma charts_need_macd_aux (ta : TaLib)
    (idx : list Timestamp) (open high low close volume : list cell)
    (idx' : list Timestamp) (open' high' low' close' volume' : list cell)
    (shown : list ui_event) (v : Verdict) :
  analysis ta (candles idx open high low close volume)
              (candles idx' open' high' low' close' volume')
  = (shown, Ok v) ->
  match ta_macd ta {| s_index := idx; s_values := close |} with
  | None =>
      dashboard ta (candles idx open high low close volume)
                   (candles idx' open' high' low' close' volume')
      = (shown, [], Raise (KeyError "MACD"))
  | Some _ =>
      exists fig fig2,
        dashboard ta (candles idx open high low close volume)
                     (candles idx' open' high' low' close' volume')
        = (shown,
           [st_plotly_chart daily_title fig;
            st_plotly_chart intraday_title fig2],
           Ok v)
  end.
Proof.
  intros Ha. destruct (analysis_ok_engine _ _ _ _ _ Ha) as [Rd Ri].
  unfold dashboard. rewrite Ha. cbv zeta. unfold render_charts.
  set (d := candles idx open high low close volume) in *.
  set (i := candles idx' open' high' low' close' volume') in *.
  set (d' := fst (add_indicators ta false d)).
  set (i' := fst (add_indicators ta true i)).
  assert (Ed : add_indicators ta false d = (d', Ok tt))
    by (subst d'; rewrite <- Rd; apply surjective_pairing).
  assert (Ei : add_indicators ta true i = (i', Ok tt))
    by (subst i'; rewrite <- Ri; apply surjective_pairing).
  assert (Kd : forall key, In key ohlcv -> has_column key d' = true)
    by (intros key Hin; apply candle_columns_kept; [exact Hin |];
        cbn [In ohlcv] in Hin;
        repeat (destruct Hin as [<- | Hin]; [reflexivity |]); contradiction).
  assert (Ki : forall key, In key ohlcv -> has_column key i' = true)
    by (intros key Hin; apply candle_columns_kept; [exact Hin |];
        cbn [In ohlcv] in Hin;
        repeat (destruct Hin as [<- | Hin]; [reflexivity |]); contradiction).
  assert (Hema : has_column "EMA_50" d' = true)
    by (apply (fun K => engine_establishes ta false "EMA_50" K d d' tt Ed);
        cbn [In app unguarded_keys]; tauto).
  destruct (figures_follow_columns_aux d') as [Fd _].
  destruct (figures_follow_columns_aux i') as [_ Fi].
  unfold first_missing, daily_chart_inputs, intraday_chart_inputs in Fd, Fi.
  cbn [find] in Fd, Fi.
  rewrite !Kd, Hema in Fd by (cbn [In ohlcv]; tauto).
  rewrite !Ki in Fi by (cbn [In ohlcv]; tauto).
  cbn [negb] in Fd, Fi. destruct Fi as (fig2 & Ei2 & _).
  destruct (ta_macd ta {| s_index := idx; s_values := close |})
    as [macd |] eqn:Hm.
  - destruct (macd_present ta false idx open high low close volume macd
                Hm Rd) as [M S].
    fold d in M, S. fold d' in M, S. rewrite M, S in Fd. cbn [negb] in Fd.
    destruct Fd as (fig & Ef & _).
    exists fig, fig2. now rewrite Ef, Ei2.
  - destruct (macd_omitted ta false idx open high low close volume
                d {| s_index := idx; s_values := close |}
                eq_refl eq_refl Hm) as [M _].
    fold d' in M. rewrite M in Fd. cbn [negb] in Fd.
    now rewrite Fd.
Qed.

(** X12. When the analysis of two frames of candles has shown its banner,
    what follows depends on the MACD of the daily frame alone.  Without a
    MACD result the daily figure fails with [KeyError "MACD"]: the handler
    ends in that exception after the banner, and neither chart is shown.
    With a MACD result both charts are shown and the handler returns. *)
Theorem charts_need_macd (ta : TaLib)
    (idx : list Timestamp) (open high low close volume : list cell)
    (idx' : list Timestamp) (open' high' low' close' volume' : list cell)
    (shown : list ui_event) (v : Verdict) :
  analysis ta (candles idx open high low close volume)
              (candles idx' open' high' low' close' volume')
  = (shown, Ok v) ->
  match ta_macd ta {| s_index := idx; s_values := close |} with
  | None =>
      dashboard ta (candles idx open high low close volume)
                   (candles idx' open' high' low' close' volume')
      = (shown, [], Raise (KeyError "MACD"))
  | Some _ =>
      exists fig fig2,
        dashboard ta (candles idx open high low close volume)
                     (candles idx' open' high' low' close' volume')
        = (shown,
           [st_plotly_chart daily_title fig;
            st_plotly_chart intraday_title fig2],
           Ok v)
  end.
Proof.
  exact (charts_need_macd_aux ta idx open high low close volume
           idx' open' high' low' close' volume' shown v).
Qed.

Lemma charts_need_macd_witness :
  (exists shown v fig fig2,
      dashboard Demo.ta_echo Demo.two_candles Demo.two_candles
      = (shown,
         [st_plotly_chart daily_title fig;
          st_plotly_chart intraday_title fig2],
         Ok v)) /\
  (exists shown,
      dashboard DemoCharts.ta_no_macd Demo.two_candles Demo.two_candles
      = (shown, [], Raise (KeyError "MACD"))).
Proof.
  split.
  - destruct (analysis Demo.ta_echo Demo.two_candles Demo.two_candles)
      as [shown [v | e]] eqn:A; [| vm_compute in A; discriminate A].
    pose proof (charts_need_macd Demo.ta_echo _ _ _ _ _ _ _ _ _ _ _ _
                  shown v A) as C.
    lazy beta iota delta [Demo.ta_echo ta_macd] in C.
    destruct C as (fig & fig2 & C). exists shown, v, fig, fig2. exact C.
  - destruct (analysis DemoCharts.ta_no_macd Demo.two_candles
                Demo.two_candles)
      as [shown [v | e]] eqn:A; [| vm_compute in A; discriminate A].
    pose proof (charts_need_macd DemoCharts.ta_no_macd _ _ _ _ _ _ _ _ _ _
                  _ _ shown v A) as C.
    lazy beta iota delta [DemoCharts.ta_no_macd ta_macd] in C.
    exists shown. exact C.
Defined.

(* ================================================================== *)
(** ** Start-up *)

Lemma secret_found (table : list (string * string)) (key : string) :
  has_secret table key = true ->
  exists v, assoc key table = Some v /\ secret (Some table) key = inl v.
Proof.
  unfold has_secret, secret. destruct (assoc key table) as [v |];
    [| discriminate]. intros _. exists v. split; reflexivity.
Qed.

Lemma secret_absent (table : list (string * string)) (key : string) :
  has_secret table key = false ->
  secret (Some table) key = inr (MissingKey key).
Proof.
  unfold has_secret, secret. destruct (assoc key table); [discriminate |].
  reflexivity.
Qed.

(** X13. The secrets are read before anything else.  Without a secrets
    file the run shows that error alone and stops.  With a file that lacks
    one of the five keys, the run names the first missing key, in the order
    API_KEY, CLIENT_CODE, PASSWORD, TOTP_SECRET, APP_PASSWORD, and stops:
    no password is asked for and no login is tried.  With all five there,
    the configuration holds the five values of the file and the run goes on
    to ask for the password. *)
Theorem secrets_come_first (w : World) :
  match secrets w with
  | None => run w = ([secrets_not_found], Stopped)
  | Some table =>
      match find (fun key => negb (has_secret table key)) secret_keys with
      | Some key => run w = ([missing_secret key], Stopped)
      | None =>
          exists cfg rest,
            load_secrets (secrets w) = inl cfg /\
            assoc "API_KEY" table = Some (API_KEY cfg) /\
            assoc "CLIENT_CODE" table = Some (CLIENT_CODE cfg) /\
            assoc "PASSWORD" table = Some (PASSWORD cfg) /\
            assoc "TOTP_SECRET" table = Some (TOTP_SECRET cfg) /\
            assoc "APP_PASSWORD" table = Some (APP_PASSWORD cfg) /\
            fst (run w) = password_input :: rest
      end
  end.
Proof.
  unfold run. destruct (secrets w) as [table |]; [| reflexivity].
  unfold load_secrets, secret_keys. cbn [find].
  destruct (has_secret table "API_KEY") eqn:H1; cbn [negb];
    [| now rewrite (secret_absent _ _ H1)].
  destruct (secret_found _ _ H1) as (v1 & A1 & ->). cbn [and_then].
  destruct (has_secret table "CLIENT_CODE") eqn:H2; cbn [negb];
    [| now rewrite (secret_absent _ _ H2)].
  destruct (secret_found _ _ H2) as (v2 & A2 & ->). cbn [and_then].
  destruct (has_secret table "PASSWORD") eqn:H3; cbn [negb];
    [| now rewrite (secret_absent _ _ H3)].
  destruct (secret_found _ _ H3) as (v3 & A3 & ->). cbn [and_then].
  destruct (has_secret table "TOTP_SECRET") eqn:H4; cbn [negb];
    [| now rewrite (secret_absent _ _ H4)].
  destruct (secret_found _ _ H4) as (v4 & A4 & ->). cbn [and_then].
  destruct (has_secret table "APP_PASSWORD") eqn:H5; cbn [negb];
    [| now rewrite (secret_absent _ _ H5)].
  destruct (secret_found _ _ H5) as (v5 & A5 & ->). cbn [and_then].
  eexists. cbn [API_KEY CLIENT_CODE PASSWORD TOTP_SECRET APP_PASSWORD].
  destruct (negb (String.eqb (typed_password w) v5)).
  - eexists. repeat split; eassumption.
  - destruct (login _ _) as [api login_events].
    destruct (load_tokens _) as [tokens_df token_events].
    destruct (selector_and_analysis _ _ _) as [events how].
    eexists. repeat split; eassumption.
Qed.

(** Runs on secrets that lack the one-time-code secret. *)
Example missing_totp_secret (w : World) :
  secrets w = Some DemoStart.no_totp ->
  run w = ([missing_secret "TOTP_SECRET"], Stopped).
Proof. intros H. unfold run. now rewrite H. Qed.

(** The ways [login] ends. *)
Lemma login_outcome_aux (broker : Broker) (cfg : Config) :
  match login broker cfg with
  | (Some api, events) =>
      events = [] /\
      SmartConnect broker (API_KEY cfg) = Ok api /\
      exists totp message,
        totp_now broker (TOTP_SECRET cfg) = Ok totp /\
        generateSession api (CLIENT_CODE cfg) (PASSWORD cfg) totp
        = Ok (ReplyDict (Some true) message)
  | (None, events) =>
      (exists api totp message,
          SmartConnect broker (API_KEY cfg) = Ok api /\
          totp_now broker (TOTP_SECRET cfg) = Ok totp /\
          generateSession api (CLIENT_CODE cfg) (PASSWORD cfg) totp
          = Ok (ReplyDict (Some false) (Some message)) /\
          events = [login_failed message]) \/
      (exists e, login_body broker cfg = Raise e /\
                 events = [connection_error e])
  end.
Proof.
  unfold login, login_body, bind.
  destruct (SmartConnect broker (API_KEY cfg)) as [api | e] eqn:Hc;
    [| right; exists e; split; reflexivity].
  destruct (totp_now broker (TOTP_SECRET cfg)) as [totp | e] eqn:Ht;
    [| right; exists e; split; reflexivity].
  destruct (generateSession api (CLIENT_CODE cfg) (PASSWORD cfg) totp)
    as [[| [[|] |] [message |]] | e] eqn:Hg; cbn [reply_status reply_message];
    try (right; eexists; split; reflexivity).
  - repeat split. exists totp, (Some message).
    split; first [reflexivity | assumption].
  - repeat split. exists totp, None.
    split; first [reflexivity | assumption].
  - left. exists api, totp, message.
    repeat split; first [reflexivity | assumption].
Qed.

(** X14. [login] never raises.  It returns the gateway object, and shows
    nothing, exactly when the object could be made, a one-time code could
    be computed, and [generateSession], called with the client code, the
    PIN and that code, returned a dictionary whose status is true.  In
    every other case it returns [None] and shows exactly one error: the
    message of the reply when the status is false and a message is there,
    the exception otherwise. *)
Theorem login_outcome (broker : Broker) (cfg : Config) :
  match login broker cfg with
  | (Some api, events) =>
      events = [] /\
      SmartConnect broker (API_KEY cfg) = Ok api /\
      exists totp message,
        totp_now broker (TOTP_SECRET cfg) = Ok totp /\
        generateSession api (CLIENT_CODE cfg) (PASSWORD cfg) totp
        = Ok (ReplyDict (Some true) message)
  | (None, events) =>
      (exists api totp message,
          SmartConnect broker (API_KEY cfg) = Ok api /\
          totp_now broker (TOTP_SECRET cfg) = Ok totp /\
          generateSession api (CLIENT_CODE cfg) (PASSWORD cfg) totp
          = Ok (ReplyDict (Some false) (Some message)) /\
          events = [login_failed message]) \/
      (exists e, login_body broker cfg = Raise e /\
                 events = [connection_error e])
  end.
Proof. exact (login_outcome_aux broker cfg). Qed.

(** What [login] may show. *)
Lemma login_events (broker : Broker) (cfg : Config) :
  snd (login broker cfg) = [] \/
  (exists message, snd (login broker cfg) = [login_failed message]) \/
  (exists e, snd (login broker cfg) = [connection_error e]).
Proof.
  pose proof (login_outcome_aux broker cfg) as H.
  destruct (login broker cfg) as [[api |] events]; cbn [snd].
  - left. exact (proj1 H).
  - destruct H as [(api & totp & message & _ & _ & _ & ->)
                  | (e & _ & ->)].
    + right. left. now exists message.
    + right. right. now exists e.
Qed.

Example login_refused :
  login (DemoStart.broker_of DemoStart.refusing) DemoStart.config
  = (None, [login_failed "Invalid totp"]) /\
  login (DemoStart.broker_of DemoStart.smart_api) DemoStart.config
  = (Some DemoStart.smart_api, []).
Proof. split; reflexivity. Qed.

(* ================================================================== *)
(** ** The stock selector *)









(* ================================================================== *)
(** ** One run, from the lock to the charts *)

(** A run whose lock is open, piece by piece. *)
Lemma run_open (w : World) (cfg : Config) :
  load_secrets (secrets w) = inl cfg ->
  typed_password w = APP_PASSWORD cfg ->
  run w
  = ((password_input
        :: snd (login (broker w) cfg)
        ++ snd (load_tokens (read_csv w))
        ++ fst (selector_and_analysis w
                  (option_map candle_session (fst (login (broker w) cfg)))
                  (fst (load_tokens (read_csv w)))))%list,
     snd (selector_and_analysis w
            (option_map candle_session (fst (login (broker w) cfg)))
            (fst (load_tokens (read_csv w))))).
Proof.
  intros Hs Hp. unfold run. rewrite Hs, Hp, String.eqb_refl. cbn [negb].
  destruct (login (broker w) cfg) as [api login_events].
  destruct (load_tokens (read_csv w)) as [tokens_df token_events].
  cbn [fst snd].
  destruct (selector_and_analysis w _ tokens_df) as [events how].
  reflexivity.
Qed.

Lemma selector_shows_no_lock (w : World) (api : option Session)
    (tokens_df : list TokenRow) :
  ~ In lock_warning (fst (selector_and_analysis w api tokens_df)).
Proof.
  unfold selector_and_analysis. destruct tokens_df as [| r t].
  - cbn [fst In]. intros [H | [H | []]]; discriminate H.
  - destruct (first_named _ _) as [row | e].
    + destruct (pressed w).
      * destruct (analyze_and_chart _ _ _) as [[shown charts] r'].
        cbn [fst In]. intros [H | [H | [H | [H | []]]]]; discriminate H.
      * cbn [fst In]. intros [H | [H | [H | []]]]; discriminate H.
    + cbn [fst In]. intros [H | [H | []]]; discriminate H.
Qed.

(** X16. The lock.  With the secrets loaded, a typed password that differs
    from APP_PASSWORD, the empty one before anything is typed included,
    ends the run at once: the page has the password field and the lock
    warning and nothing else, whatever the gateway, the token file and the
    widgets would have given.  A typed password that equals APP_PASSWORD
    never shows the warning. *)
Theorem lock_holds (w : World) (cfg : Config) :
  load_secrets (secrets w) = inl cfg ->
  (typed_password w <> APP_PASSWORD cfg ->
   run w = ([password_input; lock_warning], Stopped)) /\
  (typed_password w = APP_PASSWORD cfg ->
   ~ In lock_warning (fst (run w))).
Proof.
  intros Hs. split.
  - intros Hne. unfold run. rewrite Hs.
    destruct (String.eqb_spec (typed_password w) (APP_PASSWORD cfg));
      [contradiction | reflexivity].
  - intros Hp. rewrite (run_open w cfg Hs Hp). cbn [fst In].
    intros [H | H]; [discriminate H |].
    apply in_app_or in H. destruct H as [H | H].
    + destruct (login_events (broker w) cfg)
        as [E | [(m & E) | (e & E)]]; rewrite E in H; cbn [In] in H;
        [contradiction | |]; destruct H as [H | []]; discriminate H.
    + apply in_app_or in H. destruct H as [H | H].
      * unfold load_tokens in H. destruct (read_csv w); cbn [snd In] in H;
          [contradiction |]. destruct H as [H | []]. discriminate H.
      * exact (selector_shows_no_lock _ _ _ H).
Qed.

Lemma lock_holds_witness :
  run (DemoStart.world "guess" DemoStart.smart_api (Ok DemoStart.stocks) true)
  = ([password_input; lock_warning], Stopped) /\
  ~ In lock_warning
      (fst (run (DemoStart.world "open sesame" DemoStart.smart_api
                   (Ok DemoStart.stocks) false))).
Proof.
  split.
  - apply (proj1 (lock_holds (DemoStart.world "guess" DemoStart.smart_api
                                (Ok DemoStart.stocks) true)
                    DemoStart.config eq_refl)).
    discriminate.
  - apply (proj2 (lock_holds (DemoStart.world "open sesame"
                                DemoStart.smart_api (Ok DemoStart.stocks)
                                false)
                    DemoStart.config eq_refl)).
    reflexivity.
Defined.






(** A run that gets through: the password is right, the login is accepted,
    the first stock is analysed and both charts are drawn. *)
Example run_to_the_charts :
  exists shown fig fig2,
    run (DemoStart.world "open sesame" DemoStart.smart_api
           (Ok DemoStart.stocks) true)
    = ([password_input; selector_header; stock_selectbox ["SBIN"; "INFY"];
        analyze_button;
        analysis_output shown [st_plotly_chart daily_title fig;
                               st_plotly_chart intraday_title fig2]],
       Finished).
Proof. do 3 eexists. vm_compute. reflexivity. Qed.


